(** * Toolkit registry: a shallow embedding of [core/tools/toolkit.py]
    and of the [SerpApiTool] plugin of [app/tools/serpapi.py].

    Python dictionaries that hold arbitrary values are association lists
    (insertion ordered, one binding per key); the process-wide registry
    [Toolkit.__tools] and the [functions] table of a tool are finite maps
    keyed by string.  Raising is an explicit [Raise] result. *)

From stdpp Require Import base option list strings gmap pretty.
From Stdlib Require Import ZArith Ascii.

Open Scope string_scope.
Set Warnings "-register-all".

(** ** Python values and exceptions *)

(** The values that reach the registration code: configuration
    structures, defaults of parameters, JSON schemas, results.
    [VObject cls c] is an instance of the [Toolkit] subclass [cls] whose
    attribute [configuration] holds [c]. *)
Inductive PyVal : Type :=
| VNone
| VBool (b : bool)
| VInt (z : Z)
| VStr (s : string)
| VList (l : list PyVal)
| VDict (d : list (string * PyVal))
| VObject (cls : string) (configuration : PyVal).

(** An exception is its class and its message, [str(e)].  [ImportError]
    stands for the class and its subclasses; [OtherException] is any
    other subclass of [Exception], named by its class. *)
Inductive PyExc : Type :=
| ValueError (msg : string)
| KeyError (key : string)
| AttributeError (msg : string)
| TypeError (msg : string)
| ImportError (msg : string)
| RecursionError (msg : string)
| OtherException (cls : string) (msg : string).

(** *** [repr] of a string

    A character of a Rocq string stands for the code point of the same
    number, so that a string is a Python [str] of code points below 256. *)

Definition single_quote : ascii := ascii_of_nat 39.
Definition double_quote : ascii := ascii_of_nat 34.
Definition backslash : ascii := ascii_of_nat 92.

(** The digit of [n] below sixteen in lower-case hexadecimal. *)
Definition hex_digit (n : nat) : ascii :=
  List.nth n (String.list_ascii_of_string "0123456789abcdef") "0"%char.

(** The escape [\xhh] of the code point [n], written with the
    backslash first. *)
Definition hex_escape (n : nat) : string :=
  String backslash
    (String "x" (String (hex_digit (n / 16)%nat) (String (hex_digit (n mod 16)%nat) ""))).

(** The code points below 256 that [repr] copies as they are: those
    that are printable, the backslash apart. *)
Definition printable (n : nat) : bool :=
  negb (Nat.ltb n 32) && negb (Nat.leb 127 n && Nat.leb n 160) && negb (Nat.eqb n 173).

(** What [repr] writes for one character inside the quotes [quote]. *)
Definition repr_char (quote c : ascii) : string :=
  let n := nat_of_ascii c in
  if Ascii.eqb c quote || Ascii.eqb c backslash then String backslash (String c "")
  else if Nat.eqb n 9 then String backslash "t"
  else if Nat.eqb n 10 then String backslash "n"
  else if Nat.eqb n 13 then String backslash "r"
  else if printable n then String c ""
  else hex_escape n.

(** [c in s] *)
Fixpoint contains (c : ascii) (s : string) : bool :=
  match s with
  | EmptyString => false
  | String c' rest => Ascii.eqb c c' || contains c rest
  end.

Fixpoint repr_chars (quote : ascii) (s : string) : string :=
  match s with
  | EmptyString => ""
  | String c rest => repr_char quote c ++ repr_chars quote rest
  end.

(** [repr(s)]: double quotes when [s] holds a single quote and no
    double quote, single quotes otherwise. *)
Definition py_repr (s : string) : string :=
  let quote := if contains single_quote s && negb (contains double_quote s)
               then double_quote else single_quote in
  String quote (repr_chars quote s ++ String quote "").

(** [str(e)].  A [KeyError] raised for a key prints the [repr] of the key. *)
Definition exc_str (e : PyExc) : string :=
  match e with
  | ValueError m | AttributeError m | TypeError m
  | ImportError m | RecursionError m | OtherException _ m => m
  | KeyError k => py_repr k
  end.

(** [isinstance(e, ImportError)], the test of [except ImportError]. *)
Definition is_ImportError (e : PyExc) : bool :=
  match e with ImportError _ => true | _ => false end.

(** The outcome of evaluating an expression: a value or a raised exception. *)
Inductive Res (A : Type) : Type :=
| Ok (a : A)
| Raise (e : PyExc).
Arguments Ok {A} a.
Arguments Raise {A} e.

#[global] Instance Res_ret : MRet Res := fun _ a => Ok a.
#[global] Instance Res_bind : MBind Res := fun _ _ f m =>
  match m with Ok a => f a | Raise e => Raise e end.
#[global] Instance Res_fmap : FMap Res := fun _ _ f m =>
  match m with Ok a => Ok (f a) | Raise e => Raise e end.

(** ** Dictionaries with arbitrary values *)

Section dict.
Context {V : Type}.

(** [d.get(k)] on the bindings of a dict. *)
Fixpoint dict_get (k : string) (d : list (string * V)) : option V :=
  match d with
  | [] => None
  | (k', v) :: d' => if decide (k = k') then Some v else dict_get k d'
  end.

(** [d[k] = v]: an existing key keeps its place, a new one goes last. *)
Fixpoint dict_set (k : string) (v : V) (d : list (string * V)) : list (string * V) :=
  match d with
  | [] => [(k, v)]
  | (k', v') :: d' =>
      if decide (k = k') then (k, v) :: d' else (k', v') :: dict_set k v d'
  end.
End dict.

(** [type(v).__name__] *)
Definition type_name (v : PyVal) : string :=
  match v with
  | VNone => "NoneType"
  | VBool _ => "bool"
  | VInt _ => "int"
  | VStr _ => "str"
  | VList _ => "list"
  | VDict _ => "dict"
  | VObject cls _ => cls
  end.

(** [bool(v)]: what [if v] and [v or w] test. *)
Definition truthy (v : PyVal) : bool :=
  match v with
  | VNone => false
  | VBool b => b
  | VInt z => negb (Z.eqb z 0)
  | VStr s => negb (String.eqb s "")
  | VList l => match l with [] => false | _ => true end
  | VDict d => match d with [] => false | _ => true end
  | VObject _ _ => true
  end.

(** [v.get(k, dflt)]: only a dict has the method. *)
Definition py_get (v : PyVal) (k : string) (dflt : PyVal) : Res PyVal :=
  match v with
  | VDict d => Ok (default dflt (dict_get k d))
  | _ => Raise (AttributeError ("'" ++ type_name v ++ "' object has no attribute 'get'"))
  end.

(** ** [_get_json_type_for_py_type] *)

Definition _get_json_type_for_py_type (arg : string) : string :=
  if bool_decide (arg ∈ ["int"; "float"; "complex"; "Decimal"]) then "number"
  else if bool_decide (arg ∈ ["str"; "string"]) then "string"
  else if bool_decide (arg ∈ ["bool"; "boolean"]) then "boolean"
  else if bool_decide (arg ∈ ["NoneType"; "None"]) then "null"
  else if bool_decide (arg ∈ ["list"; "tuple"; "set"; "frozenset"]) then "array"
  else if bool_decide (arg ∈ ["dict"; "mapping"]) then "object"
  else "unknown".

(** The type names the mapping recognizes. *)
Definition recognized_type_names : list string :=
  ["int"; "float"; "complex"; "Decimal"; "str"; "string"; "bool"; "boolean";
   "NoneType"; "None"; "list"; "tuple"; "set"; "frozenset"; "dict"; "mapping"].

(** The closed set of type categories. *)
Definition type_categories : list string :=
  ["number"; "string"; "boolean"; "null"; "array"; "object"; "unknown"].

(** ** Declarations as [inspect] and [docstring_parser] present them *)

(** [param.annotation]: [inspect.Parameter.empty], an object that has a
    [__name__] (a class), or an object of type [ty] that has none (the
    object [None], a string, a union). *)
Inductive Annotation : Type :=
| AnnEmpty
| AnnNamed (name : string)
| AnnUnnamed (ty : string).

(** One entry of [inspect.signature(func).parameters]; [default] is
    [None] for [inspect.Parameter.empty].  Operations declare plain
    positional-or-keyword parameters. *)
Record Param : Type := mkParam {
  p_name : string;
  p_default : option PyVal;
  p_annotation : Annotation
}.

(** One entry of [parse(inspect.getdoc(func)).params]; the description
    of a documented parameter is a string or [None]. *)
Record DocParam : Type := mkDocParam {
  arg_name : string;
  description : option string
}.

(** The dict appended to [args] for a parameter. *)
Record ParameterDescriptor : Type := mkDescriptor {
  pd_name : string;
  pd_description : option string;
  pd_optional : bool;
  pd_default : PyVal;
  pd_type : string
}.

(** [next((p.description for p in parsed.params if p.arg_name == name), "")] *)
Fixpoint doc_description (params : list DocParam) (n : string) : option string :=
  match params with
  | [] => Some ""
  | p :: rest => if decide (arg_name p = n) then description p else doc_description rest n
  end.

(** [param.annotation.__name__ if param.annotation is not inspect.Parameter.empty else "any"] *)
Definition annotation_name (a : Annotation) : Res string :=
  match a with
  | AnnEmpty => Ok "any"
  | AnnNamed n => Ok n
  | AnnUnnamed ty => Raise (AttributeError ("'" ++ ty ++ "' object has no attribute '__name__'"))
  end.

(** The dict built for one parameter that is kept. *)
Definition describe_parameter (parsed : list DocParam) (p : Param) : Res ParameterDescriptor :=
  ty ← annotation_name (p_annotation p);
  Ok {| pd_name := p_name p;
        pd_description := doc_description parsed (p_name p);
        pd_optional := bool_decide (is_Some (p_default p));
        pd_default := default VNone (p_default p);
        pd_type := _get_json_type_for_py_type ty |}.

(** [name == "self" or name == "_config"] *)
Definition reserved (n : string) : bool :=
  bool_decide (n = "self") || bool_decide (n = "_config").

(** The loop of [tool_func]'s [decorator] that fills [args]. *)
Fixpoint describe_parameters (parsed : list DocParam) (params : list Param)
  : Res (list ParameterDescriptor) :=
  match params with
  | [] => Ok []
  | p :: rest =>
      if reserved (p_name p) then describe_parameters parsed rest
      else
        d ← describe_parameter parsed p;
        ds ← describe_parameters parsed rest;
        Ok (d :: ds)
  end.

(** The parameters the loop keeps. *)
Definition kept (params : list Param) : list Param :=
  filter (λ p, reserved (p_name p) = false) params.

(** A parameter whose annotation, if any, has a [__name__]. *)
Definition nameable (p : Param) : Prop :=
  match p_annotation p with AnnUnnamed _ => False | _ => True end.

(** ** Records of the registry *)

(** The [kwargs] dict that [tool_func] registers for an operation. *)
Record OperationRecord : Type := mkOperation {
  op_id : string;
  op_title : option string;
  op_description : option string;
  op_parameters : gmap string ParameterDescriptor;
  op_returns : PyVal;
  op_schema : PyVal;
  op_enabled : bool;
  op_llm_tool : PyVal
}.

(** The [kwargs] dict that [tool] registers for a class. *)
Record ContainerRecord : Type := mkContainer {
  tc_id : string;
  tc_title : option string;
  tc_description : option string;
  tc_icon : option string;
  tc_category : option string;
  tc_functions : gmap string OperationRecord;
  tc_schema : PyVal
}.

(** [d["functions"][name] = kwargs] *)
Definition add_function (n : string) (kwargs : OperationRecord) (d : ContainerRecord)
  : ContainerRecord :=
  {| tc_id := tc_id d; tc_title := tc_title d; tc_description := tc_description d;
     tc_icon := tc_icon d; tc_category := tc_category d;
     tc_functions := <[n := kwargs]> (tc_functions d);
     tc_schema := tc_schema d |}.

(** The class variable [Toolkit.__tools]. *)
Abbreviation Registry := (gmap string ContainerRecord).

(** [schema.model_json_schema() if schema else None]: a model class is
    given by the JSON schema it renders to, and a class is truthy. *)
Definition json_schema (schema : option PyVal) : PyVal := default VNone schema.

(** [a or b] on values that are a string or [None]. *)
Definition str_or (a b : option string) : option string :=
  match a with
  | Some s => if String.eqb s "" then b else a
  | None => b
  end.

(** ** The class [Toolkit] *)

Module Toolkit.

(** The configuration an instance gets when none is supplied. *)
Definition default_configuration : PyVal :=
  VDict [("config", VDict []); ("functions", VDict []); ("enable", VList [])].

(** [__init__]: the instance of class [cls] built from [configuration]. *)
Definition init (cls : string) (configuration : PyVal) : PyVal :=
  VObject cls (if truthy configuration then configuration else default_configuration).

(** The type of [kwargs] in [register]: the record of an operation
    when [tool_cls] is given, the record of a class otherwise, as the
    two decorators, its only callers, pass them. *)
Definition kwargs_for (tool_cls : option string) : Type :=
  match tool_cls with
  | Some _ => OperationRecord
  | None => ContainerRecord
  end.

(** [register(name, kwargs, tool_cls)] on the registry [tools]. *)
Definition register (n : string) (tool_cls : option string)
  : kwargs_for tool_cls → Registry → Res Registry :=
  match tool_cls with
  | Some tc => fun kwargs tools =>
      match tools !! tc with
      | None => Raise (ValueError ("Tool " ++ tc ++ " is not registered"))
      | Some d =>
          if bool_decide (is_Some (tc_functions d !! n))
          then Raise (ValueError ("Tool " ++ n ++ " is already registered in " ++ tc))
          else Ok (<[tc := add_function n kwargs d]> tools)
      end
  | None => fun kwargs tools => Ok (<[n := kwargs]> tools)
  end.

(** [tool(_cls, _func)]: a missing key raises [KeyError]. *)
Definition tool (_cls : string) (_func : option string) (tools : Registry)
  : Res (ContainerRecord + OperationRecord) :=
  match tools !! _cls with
  | None => Raise (KeyError _cls)
  | Some d =>
      match _func with
      | None => Ok (inl d)
      | Some f =>
          match tc_functions d !! f with
          | None => Raise (KeyError f)
          | Some r => Ok (inr r)
          end
      end
  end.

End Toolkit.

(** ** The decorator [tool] *)

(** A class as the decorator sees it: [__name__] and [__doc__]. *)
Record PyClass : Type := mkClass {
  cls_name : string;
  cls_doc : option string
}.

(** [tool(schema, title, description, icon, category)(cls)]: registers
    the class and returns it. *)
Definition tool (schema : option PyVal) (title description icon category : option string)
    (cls : PyClass) (tools : Registry) : Res (PyClass * Registry) :=
  let kwargs :=
    {| tc_id := cls_name cls;
       tc_title := title;
       tc_description := str_or description (cls_doc cls);
       tc_icon := icon;
       tc_category := category;
       tc_functions := ∅;
       tc_schema := json_schema schema |} in
  tools' ← Toolkit.register (cls_name cls) None kwargs tools;
  Ok (cls, tools').

(** ** Calling a function *)

Definition quote (s : string) : string := "'" ++ s ++ "'".

(** The names listed by a missing-argument [TypeError]. *)
Fixpoint format_missing (names : list string) : string :=
  match names with
  | [] => ""
  | [a] => quote a
  | [a; b] => quote a ++ " and " ++ quote b
  | [a; b; c] => quote a ++ ", " ++ quote b ++ ", and " ++ quote c
  | a :: rest => quote a ++ ", " ++ format_missing rest
  end.

(** Positional arguments go to the leading parameters. *)
Fixpoint bind_positional (params : list Param) (args : list PyVal) : list (string * PyVal) :=
  match params, args with
  | p :: ps, a :: rest => (p_name p, a) :: bind_positional ps rest
  | _, _ => []
  end.

(** Keyword arguments, in order: each must name a parameter that has no
    value yet. *)
Fixpoint bind_keywords (qualname : string) (params : list Param)
    (kwargs bound : list (string * PyVal)) : Res (list (string * PyVal)) :=
  match kwargs with
  | [] => Ok bound
  | (k, v) :: rest =>
      if bool_decide (k ∈ p_name <$> params) then
        if bool_decide (is_Some (dict_get k bound))
        then Raise (TypeError (qualname ++ "() got multiple values for argument " ++ quote k))
        else bind_keywords qualname params rest (dict_set k v bound)
      else Raise (TypeError (qualname ++ "() got an unexpected keyword argument " ++ quote k))
  end.

Definition too_many_positional (qualname : string) (params : list Param) (given : nat) : PyExc :=
  let n := length params in
  let defcount := length (filter (λ p, is_Some (p_default p)) params) in
  let sig := if bool_decide (defcount = 0) then pretty n
             else "from " ++ pretty (n - defcount) ++ " to " ++ pretty n in
  let plural := if bool_decide (defcount = 0 ∧ n = 1) then "" else "s" in
  TypeError (qualname ++ "() takes " ++ sig ++ " positional argument" ++ plural
             ++ " but " ++ pretty given
             ++ (if bool_decide (given = 1) then " was" else " were") ++ " given").

(** The parameters left without a value and without a default. *)
Definition missing_arguments (params : list Param) (bound : list (string * PyVal)) : list string :=
  p_name <$> filter (λ p, dict_get (p_name p) bound = None ∧ p_default p = None) params.

(** The locals of the call, in the order of the parameters. *)
Definition fill_defaults (params : list Param) (bound : list (string * PyVal))
  : list (string * PyVal) :=
  omap (λ p, (λ v, (p_name p, v)) <$>
             match dict_get (p_name p) bound with
             | Some v => Some v
             | None => p_default p
             end) params.

(** Binding positional and keyword arguments to the parameters of a
    function that has no variadic parameter of its own. *)
Definition bind_arguments (qualname : string) (params : list Param)
    (args : list PyVal) (kwargs : list (string * PyVal)) : Res (list (string * PyVal)) :=
  bound ← bind_keywords qualname params kwargs (bind_positional params args);
  if bool_decide (length params < length args)
  then Raise (too_many_positional qualname params (length args))
  else
    match missing_arguments params bound with
    | [] => Ok (fill_defaults params bound)
    | names =>
        Raise (TypeError (qualname ++ "() missing " ++ pretty (length names)
                          ++ " required positional argument"
                          ++ (if bool_decide (length names = 1) then "" else "s")
                          ++ ": " ++ format_missing names))
    end.

(** [self.configuration] *)
Definition get_configuration (self : PyVal) : Res PyVal :=
  match self with
  | VObject _ c => Ok c
  | _ => Raise (AttributeError ("'" ++ type_name self
                                ++ "' object has no attribute 'configuration'"))
  end.

(** [self.configuration.get("functions", {"config": ""}).get("config", {})] *)
Definition injected_config (self : PyVal) : Res PyVal :=
  conf ← get_configuration self;
  fns ← py_get conf "functions" (VDict [("config", VStr "")]);
  py_get fns "config" (VDict []).

(** Binding a call to [wrapper(self, *args, **kwargs)]: the receiver,
    the other positional arguments and the keyword arguments. *)
Definition bind_wrapper (qualname : string) (args : list PyVal) (kwargs : list (string * PyVal))
  : Res (PyVal * list PyVal * list (string * PyVal)) :=
  match args with
  | self :: rest =>
      if bool_decide (is_Some (dict_get "self" kwargs))
      then Raise (TypeError (qualname ++ "() got multiple values for argument " ++ quote "self"))
      else Ok (self, rest, kwargs)
  | [] =>
      match dict_get "self" kwargs with
      | Some self => Ok (self, [], filter (λ kv, kv.1 ≠ "self") kwargs)
      | None => Raise (TypeError (qualname ++ "() missing 1 required positional argument: "
                                  ++ quote "self"))
      end
  end.

(** [s.split(".")[0]] *)
Fixpoint split_head (s : string) : string :=
  match s with
  | EmptyString => ""
  | String c rest => if Ascii.eqb c "."%char then "" else String c (split_head rest)
  end.

Section functions.
(** The state of everything outside the program: installed packages,
    the network, the log. *)
Context {W : Type}.

(** A computation that reads and changes the outside world and
    returns or raises. *)
Definition Eff (A : Type) : Type := W → Res A * W.

#[global] Instance Eff_ret : MRet Eff := λ _ a w, (Ok a, w).
#[global] Instance Eff_bind : MBind Eff := λ _ _ f m w,
  match m w with
  | (Ok a, w') => f a w'
  | (Raise e, w') => (Raise e, w')
  end.

(** A pure outcome as a computation. *)
Definition lift {A : Type} (r : Res A) : Eff A := λ w, (r, w).

(** A function object: [__name__], [__qualname__], the parameters of
    its parsed docstring, the parameters [inspect.signature] reports,
    and what calling it with positional and keyword arguments does. *)
Record PyFunction : Type := mkFunction {
  fn_name : string;
  fn_qualname : string;
  fn_doc : list DocParam;
  fn_signature : list Param;
  fn_call : list PyVal → list (string * PyVal) → Eff PyVal
}.

(** A function written with [def]: a call binds the arguments to the
    declared parameters and runs the body on the locals. *)
Definition def_function (n qualname : string) (doc : list DocParam) (params : list Param)
    (body : list (string * PyVal) → Eff PyVal) : PyFunction :=
  {| fn_name := n;
     fn_qualname := qualname;
     fn_doc := doc;
     fn_signature := params;
     fn_call := λ args kwargs,
       locals ← lift (bind_arguments qualname params args kwargs);
       body locals |}.

(** The body of [wrapper], closed over [func]. *)
Definition wrapper_call (func : PyFunction) (args : list PyVal)
    (kwargs : list (string * PyVal)) : Eff PyVal :=
  '(self, args, kwargs) ← lift (bind_wrapper (fn_qualname func) args kwargs);
  config ← lift (injected_config self);
  fn_call func (self :: args) (dict_set "_config" config kwargs).

(** [wraps(func)(wrapper)]: the wrapper takes the name, the qualified
    name and the docstring of [func], and [inspect.signature] follows
    [__wrapped__] to the signature of [func]. *)
Definition wrapper (func : PyFunction) : PyFunction :=
  {| fn_name := fn_name func;
     fn_qualname := fn_qualname func;
     fn_doc := fn_doc func;
     fn_signature := fn_signature func;
     fn_call := wrapper_call func |}.

(** The [kwargs] dict that [tool_func] builds for [func]. *)
Definition operation_record (schema : option PyVal) (title desc : option string)
    (func : PyFunction) : OperationRecord :=
  {| op_id := fn_name func;
     op_title := title;
     op_description := desc;
     op_parameters := ∅;
     op_returns := VDict [("type", VStr ","); ("description", VStr "")];
     op_schema := json_schema schema;
     op_enabled := true;
     op_llm_tool := VDict [] |}.

(** [tool_func(schema, title, desc)(func)]: registers the operation
    under the class named by its qualified name and returns the
    wrapper.  [args] is built and not used. *)
Definition tool_func (schema : option PyVal) (title desc : option string)
    (func : PyFunction) (tools : Registry) : Res (PyFunction * Registry) :=
  args ← describe_parameters (fn_doc func) (fn_signature func);
  let kwargs := operation_record schema title desc func in
  let tool_cls := split_head (fn_qualname func) in
  tools' ← Toolkit.register (fn_name func) (Some tool_cls) kwargs tools;
  Ok (wrapper func, tools').

End functions.

(** ** The plugin [SerpApiTool] *)

Section serpapi.
Context {W : Type}.

(** What the plugin reaches outside the repository:
    [from serpapi import cls];
    [with cls(params) as search: results = search.get_dict()], from
    the construction of the search to the dict it returns;
    [subprocess.run(cmd, check=True, capture_output=True, text=True)];
    [logger.exception(e)]. *)
Variable import_serpapi : string → @Eff W unit.
Variable serpapi_get_dict : string → PyVal → @Eff W PyVal.
Variable subprocess_run : list string → @Eff W unit.
Variable logger_exception : PyExc → W → W.

(** What [docstring_parser] finds in the two docstrings, the
    rendering of the two pydantic models, and [ToolCategory.Search]. *)
Variable google_doc youtube_doc : list DocParam.
Variable SerpApiConfig SearchConfig : PyVal.
Variable ToolCategory_Search : option string.

(** [install_package] of [app/utils/package.py]: no exception of the
    subprocess leaves it. *)
Definition install_package (package : string) : @Eff W bool := λ w,
  match subprocess_run ["poetry"; "add"; package; "--group"; "dev"] w with
  | (Ok _, w') => (Ok true, w')
  | (Raise _, w') => (Ok false, w')
  end.

(** The property [api_key]. *)
Definition api_key (self : PyVal) : Res PyVal :=
  conf ← get_configuration self;
  py_get conf "api_key" (VStr "").

(** The value of a local variable of a call. *)
Definition local (n : string) (locals : list (string * PyVal)) : PyVal :=
  default VNone (dict_get n locals).

(** The body shared by [search_google] and [search_youtube], which
    differ in the class they import and the key they read.  [method]
    is the attribute of the instance that the handler of
    [ImportError] calls again. *)
Definition search (cls results_key : string) (method : @PyFunction W)
    (locals : list (string * PyVal)) : @Eff W PyVal := λ w,
  let self := local "self" locals in
  let query := local "query" locals in
  let _config := local "_config" locals in
  let attempt : @Eff W PyVal :=
    _ ← import_serpapi cls;
    num ← lift (py_get _config "num_results" VNone);
    key ← lift (api_key self);
    results ← serpapi_get_dict cls (VDict [("q", query); ("num", num); ("api_key", key)]);
    lift (py_get results results_key (VList [])) in
  match attempt w with
  | (Ok v, w1) => (Ok v, w1)
  | (Raise e, w1) =>
      if is_ImportError e then
        (_ ← install_package "google-search-results";
         _ ← fn_call method [self; query; _config] [];
         mret VNone) w1
      else (Ok (VDict [("error", VStr (exc_str e))]), logger_exception e w1)
  end.

Definition search_params : list Param :=
  [mkParam "self" None AnnEmpty;
   mkParam "query" None (AnnNamed "str");
   mkParam "_config" None (AnnNamed "dict")].

(** A call that finds the stack full. *)
Definition exhausted (n qualname : string) (doc : list DocParam) : @PyFunction W :=
  {| fn_name := n; fn_qualname := qualname; fn_doc := doc;
     fn_signature := search_params;
     fn_call := λ _ _, lift (Raise (RecursionError "maximum recursion depth exceeded")) |}.

(** The function under [@tool_func(SearchConfig, title="Search Google")];
    [method] is what [self.search_google] resolves to. *)
Definition search_google_def (method : @PyFunction W) : @PyFunction W :=
  def_function "search_google" "SerpApiTool.search_google" google_doc search_params
    (search "GoogleSearch" "organic_results" method).

(** The attribute [SerpApiTool.search_google]: the decorated function,
    with room on the stack for [depth] nested calls of the method. *)
Fixpoint search_google (depth : nat) : @PyFunction W :=
  match depth with
  | 0 => exhausted "search_google" "SerpApiTool.search_google" google_doc
  | S d => wrapper (search_google_def (search_google d))
  end.

Definition search_youtube_def (method : @PyFunction W) : @PyFunction W :=
  def_function "search_youtube" "SerpApiTool.search_youtube" youtube_doc search_params
    (search "YoutubeSearch" "videos" method).

(** The attribute [SerpApiTool.search_youtube]. *)
Fixpoint search_youtube (depth : nat) : @PyFunction W :=
  match depth with
  | 0 => exhausted "search_youtube" "SerpApiTool.search_youtube" youtube_doc
  | S d => wrapper (search_youtube_def (search_youtube d))
  end.

(** Loading [app/tools/serpapi.py]: the body of the class runs first,
    decorating the two methods, then [tool] decorates the class. *)
Definition load_serpapi (depth : nat) (tools : Registry) : Res Registry :=
  '(_, tools) ← tool_func (Some SearchConfig) (Some "Search Google") None
                  (search_google_def (search_google depth)) tools;
  '(_, tools) ← tool_func (Some SearchConfig) (Some "Search YouTube") None
                  (search_youtube_def (search_youtube depth)) tools;
  '(_, tools) ← tool (Some SerpApiConfig) (Some "SerpApi Tools")
                  (Some "Tools for interacting with SerpApi") (Some "serpapi")
                  ToolCategory_Search (mkClass "SerpApiTool" None) tools;
  Ok tools.

End serpapi.

(** ** Decorating the methods of a registered class *)

(** A string without a dot. *)
Fixpoint dotless (s : string) : bool :=
  match s with
  | EmptyString => true
  | String c rest => negb (Ascii.eqb c "."%char) && dotless rest
  end.

(** One use of [@tool_func(schema, title, desc)] on a function. *)
Record Decoration {W : Type} : Type := mkDecoration {
  dec_schema : option PyVal;
  dec_title : option string;
  dec_desc : option string;
  dec_func : @PyFunction W
}.
Arguments Decoration W : clear implicits.

(** Decorations applied one after the other, the first that raises
    ending the run. *)
Fixpoint decorate_all {W : Type} (decs : list (Decoration W)) (tools : Registry)
  : Res Registry :=
  match decs with
  | [] => Ok tools
  | dec :: rest =>
      '(_, tools) ← tool_func (dec_schema dec) (dec_title dec) (dec_desc dec)
                      (dec_func dec) tools;
      decorate_all rest tools
  end.

(** The name a decoration registers. *)
Definition dec_name {W : Type} (dec : Decoration W) : string := fn_name (dec_func dec).

(** A decoration that [tool_func] accepts under the class [tc] whose
    record is [d]: it belongs to that class, its signature can be
    described, and its name is free. *)
Definition acceptable {W : Type} (tc : string) (d : ContainerRecord) (dec : Decoration W)
  : Prop :=
  split_head (fn_qualname (dec_func dec)) = tc ∧
  Forall nameable (kept (fn_signature (dec_func dec))) ∧
  tc_functions d !! dec_name dec = None.

(** ** The prototype of [test.py] *)

Module Prototype.

(** One dict appended to a list of [PENDING_FUNCTIONS]. *)
Record FunctionEntry : Type := mkEntry {
  fe_name : string;
  fe_title : string;
  fe_config_class : string;
  fe_doc : option string
}.

(** One dict of [TOOL_REGISTRY]. *)
Record ToolEntry : Type := mkTool {
  te_title : PyVal;
  te_description : PyVal;
  te_icon : PyVal;
  te_category : PyVal;
  te_functions : list FunctionEntry
}.

(** The two module-level dicts. *)
Record State : Type := mkState {
  TOOL_REGISTRY : gmap string ToolEntry;
  PENDING_FUNCTIONS : gmap string (list FunctionEntry)
}.

(** The state when the module starts to load. *)
Definition initial : State := {| TOOL_REGISTRY := ∅; PENDING_FUNCTIONS := ∅ |}.

(** A class as [register_tool] sees it: [__name__] and the attributes
    [getattr] finds on it. *)
Record ProtoClass : Type := mkProtoClass {
  pc_name : string;
  pc_attrs : list (string * PyVal)
}.

(** [getattr(cls, attr, dflt)] *)
Definition getattr (cls : ProtoClass) (attr : string) (dflt : PyVal) : PyVal :=
  default dflt (dict_get attr (pc_attrs cls)).

(** [register_tool(cls)]: the class is returned unchanged. *)
Definition register_tool (cls : ProtoClass) (st : State) : ProtoClass * State :=
  let class_name := pc_name cls in
  (cls,
   {| TOOL_REGISTRY :=
        <[class_name :=
            {| te_title := getattr cls "title" (VStr class_name);
               te_description := getattr cls "description" (VStr "");
               te_icon := getattr cls "icon" (VStr "");
               te_category := getattr cls "category" (VStr "");
               te_functions := default [] (PENDING_FUNCTIONS st !! class_name) |}]>
          (TOOL_REGISTRY st);
      PENDING_FUNCTIONS := delete class_name (PENDING_FUNCTIONS st) |}).

(** The argument [config_cls]: an object with a [__name__], or one
    without, given by its [str]. *)
Inductive ConfigCls : Type :=
| Named (name : string)
| Unnamed (str : string).

(** [config_cls.__name__ if hasattr(config_cls, "__name__") else str(config_cls)] *)
Definition config_class (config_cls : ConfigCls) : string :=
  match config_cls with
  | Named n => n
  | Unnamed s => s
  end.

(** The [wrapper] of the prototype: it calls [func] with the arguments
    it is given. *)
Definition forwarding_wrapper {W : Type} (func : @PyFunction W) : @PyFunction W :=
  {| fn_name := fn_name func;
     fn_qualname := fn_qualname func;
     fn_doc := fn_doc func;
     fn_signature := fn_signature func;
     fn_call := λ args kwargs,
       '(self, args, kwargs) ← lift (bind_wrapper (fn_qualname func) args kwargs);
       fn_call func (self :: args) kwargs |}.

(** [register_tool_func(config_cls, title)(func)], where [doc] is
    [func.__doc__]. *)
Definition register_tool_func {W : Type} (config_cls : ConfigCls) (title : string)
    (func : @PyFunction W) (doc : option string) (st : State) : @PyFunction W * State :=
  let class_name := split_head (fn_qualname func) in
  let entry := {| fe_name := fn_name func;
                  fe_title := title;
                  fe_config_class := config_class config_cls;
                  fe_doc := doc |} in
  (forwarding_wrapper func,
   {| TOOL_REGISTRY := TOOL_REGISTRY st;
      PENDING_FUNCTIONS :=
        <[class_name := (default [] (PENDING_FUNCTIONS st !! class_name) ++ [entry])%list]>
          (PENDING_FUNCTIONS st) |}).

(** One use of [@register_tool_func] in the body of a class. *)
Record MethodDecl {W : Type} : Type := mkMethod {
  md_config_cls : ConfigCls;
  md_title : string;
  md_func : @PyFunction W;
  md_doc : option string
}.
Arguments MethodDecl W : clear implicits.

(** The body of a class: its decorated methods, in order. *)
Fixpoint decorate_methods {W : Type} (methods : list (MethodDecl W)) (st : State) : State :=
  match methods with
  | [] => st
  | m :: rest =>
      decorate_methods rest
        (register_tool_func (md_config_cls m) (md_title m) (md_func m) (md_doc m) st).2
  end.

(** The entry a method leaves in the pending list. *)
Definition entry_of {W : Type} (m : MethodDecl W) : FunctionEntry :=
  {| fe_name := fn_name (md_func m);
     fe_title := md_title m;
     fe_config_class := config_class (md_config_cls m);
     fe_doc := md_doc m |}.

(** A class statement under [@register_tool]: the body first, then the
    decorator of the class. *)
Definition declare_class {W : Type} (cls : ProtoClass) (methods : list (MethodDecl W))
    (st : State) : State :=
  (register_tool cls (decorate_methods methods st)).2.

End Prototype.

(** ** Scenarios *)

(** A signature with a receiver, a required parameter, an optional one
    and the reserved configuration parameter. *)
Definition example_signature : list Param :=
  [mkParam "self" None AnnEmpty;
   mkParam "query" None (AnnNamed "str");
   mkParam "limit" (Some (VInt 10)) (AnnNamed "int");
   mkParam "_config" None (AnnNamed "dict")].

(** *** The scenario of a class [C] with one operation [op] *)

(** [def op(self, query, _config)], documented with a description of
    [query]; its body returns the configuration it is given. *)
Definition example_op : @PyFunction unit :=
  def_function "op" "C.op"
    [mkDocParam "query" (Some "The text to look for.")]
    [mkParam "self" None AnnEmpty; mkParam "query" None AnnEmpty;
     mkParam "_config" None AnnEmpty]
    (λ locals, mret (local "_config" locals)).

(** [def op(self, query, _config)] whose body raises. *)
Definition failing_op : @PyFunction unit :=
  def_function "op" "C.op" []
    [mkParam "self" None AnnEmpty; mkParam "query" None AnnEmpty;
     mkParam "_config" None AnnEmpty]
    (λ _, lift (Raise (ValueError "no result"))).

(** A second operation of [C], and the two decorated in turn. *)
Definition example_op2 : @PyFunction unit :=
  def_function "op2" "C.op2" []
    [mkParam "self" None AnnEmpty; mkParam "limit" (Some (VInt 10)) (AnnNamed "int");
     mkParam "_config" None AnnEmpty]
    (λ locals, mret (local "limit" locals)).

Definition example_decorations : list (Decoration unit) :=
  [mkDecoration unit None (Some "Op") None example_op;
   mkDecoration unit None None (Some "The second operation") example_op2].

(** An operation of [C] declared without [_config]. *)
Definition op_without_config : @PyFunction unit :=
  def_function "plain" "C.plain" []
    [mkParam "self" None AnnEmpty; mkParam "query" None AnnEmpty]
    (λ locals, mret (local "query" locals)).

(** An instance whose [functions] is a list. *)
Definition instance_with_list_functions : PyVal :=
  VObject "C" (VDict [("functions", VList [])]).

(** The record [tool()] registers for [class C]. *)
Definition container_C : ContainerRecord :=
  {| tc_id := "C"; tc_title := None; tc_description := None; tc_icon := None;
     tc_category := None; tc_functions := ∅; tc_schema := VNone |}.

(** The registry once [C] is registered, and once [op] is as well. *)
Definition registry_C : Registry := <["C" := container_C]> ∅.
Definition registry_C_op : Registry :=
  <["C" := add_function "op" (operation_record None None None example_op) container_C]>
    registry_C.

(** The instance has an entry for the operation [op] in the [functions]
    mapping of its configuration. *)
Definition has_functions_entry (self : PyVal) (op : string) : Prop :=
  ∃ cls conf fns v,
    self = VObject cls (VDict conf) ∧
    dict_get "functions" conf = Some (VDict fns) ∧
    dict_get op fns = Some v.

(** The configuration of the instance is a mapping, and what it holds
    under [functions], if anything, is a mapping. *)
Definition well_configured (self : PyVal) : Prop :=
  ∃ cls conf,
    self = VObject cls (VDict conf) ∧
    ∀ v, dict_get "functions" conf = Some v → ∃ fns, v = VDict fns.

(** An instance configured for the operation [config] and for no other. *)
Definition instance_with_shared_config : PyVal :=
  VObject "C" (VDict [("functions", VDict [("config", VDict [("num_results", VInt 5)])])]).

(** An instance configured for the operation [op] by its name. *)
Definition instance_with_op_config : PyVal :=
  VObject "C" (VDict [("functions", VDict [("op", VDict [("num_results", VInt 5)])])]).

(** An instance whose configuration has no [functions] at all. *)
Definition instance_without_functions : PyVal :=
  VObject "C" (VDict [("api_key", VStr "secret")]).

(** *** A machine without the package [serpapi]

    The state of the world is whether the package is installed;
    [poetry add] installs it, and the backend returns no result. *)
Definition offline_import (cls : string) : @Eff bool unit := λ installed,
  if installed then (Ok (), installed)
  else (Raise (ImportError "No module named 'serpapi'"), installed).
Definition offline_get_dict (cls : string) (params : PyVal) : @Eff bool PyVal := λ installed,
  (Ok (VDict [("organic_results", VList []); ("videos", VList [])]), installed).
Definition offline_subprocess_run (cmd : list string) : @Eff bool unit := λ _, (Ok (), true).
Definition offline_logger (e : PyExc) (installed : bool) : bool := installed.

(** The instance of [test/serp_test.py]. *)
Definition serp_api_tool : PyVal :=
  Toolkit.init "SerpApiTool" (VDict [("api_key", VStr "secret")]).

(** The record [tool] registers for [SerpApiTool] when the schema and
    the category are [None], and a registry that already holds it. *)
Definition serpapi_record : ContainerRecord :=
  {| tc_id := "SerpApiTool"; tc_title := Some "SerpApi Tools";
     tc_description := Some "Tools for interacting with SerpApi";
     tc_icon := Some "serpapi"; tc_category := None;
     tc_functions := ∅; tc_schema := VNone |}.
Definition registry_serpapi : Registry := <["SerpApiTool" := serpapi_record]> ∅.

(** A machine with the package, and a backend that is down. *)
Definition online_import (cls : string) : @Eff bool unit := λ w, (Ok (), w).
Definition failing_get_dict (cls : string) (params : PyVal) : @Eff bool PyVal := λ w,
  (Raise (OtherException "HTTPError" "503 Service Unavailable"), w).

(** An instance with a key and a configuration of its operations. *)
Definition configured_tool : PyVal :=
  VObject "SerpApiTool"
    (VDict [("api_key", VStr "secret");
            ("functions", VDict [("config", VDict [("num_results", VInt 5)])])]).

(** The class and the method of [test.py]. *)
Definition proto_SerpApiTool : Prototype.ProtoClass :=
  Prototype.mkProtoClass "SerpApiTool"
    [("title", VStr "SerpApi Tools");
     ("description", VStr "Tools for interacting with SerpApi");
     ("icon", VStr "serpapi");
     ("category", VStr "Search")].

Definition proto_search_google : @PyFunction unit :=
  def_function "search_google" "SerpApiTool.search_google" [] search_params
    (λ locals, mret (VDict [("query", local "query" locals); ("status", VStr "success")])).

(** The [__doc__] of the method, with the line breaks and the
    indentation of the source. *)
Definition proto_doc : string :=
  "
        Performs a Google search and returns results.
        ".

Definition proto_methods : list (Prototype.MethodDecl unit) :=
  [Prototype.mkMethod unit (Prototype.Named "dict") "Search Google" proto_search_google
     (Some proto_doc)].

(** * Properties *)

(** ** Dictionaries *)

Section dict_facts.
Context {V : Type}.
Implicit Types (d : list (string * V)) (k : string) (v : V).

Lemma dict_get_set_eq d k v : dict_get k (dict_set k v d) = Some v.
Proof.
  induction d as [|[k' v'] d IH]; simpl.
  - by rewrite decide_True.
  - destruct (decide (k = k')) as [->|Hne]; simpl.
    + by rewrite decide_True.
    + by rewrite decide_False.
Qed.

Lemma dict_get_set_ne d k k' v : k' ≠ k → dict_get k' (dict_set k v d) = dict_get k' d.
Proof.
  intros Hne. induction d as [|[k0 v0] d IH]; simpl.
  - by rewrite decide_False.
  - destruct (decide (k = k0)) as [->|Hk]; simpl.
    + by rewrite !decide_False.
    + destruct (decide (k' = k0)); [done | apply IH].
Qed.
End dict_facts.

(** ** The type mapping *)

(** C7: [int] and [float] map to number, [str] to string, [bool] to
    boolean, [list], [tuple] and [set] to array, [dict] to object; a
    name the mapping does not recognize maps to unknown; the function is
    total and its result is always one of the seven categories. *)
Theorem json_type_for_py_type_mapping :
  _get_json_type_for_py_type "int" = "number" ∧
  _get_json_type_for_py_type "float" = "number" ∧
  _get_json_type_for_py_type "str" = "string" ∧
  _get_json_type_for_py_type "bool" = "boolean" ∧
  _get_json_type_for_py_type "list" = "array" ∧
  _get_json_type_for_py_type "tuple" = "array" ∧
  _get_json_type_for_py_type "set" = "array" ∧
  _get_json_type_for_py_type "dict" = "object" ∧
  (∀ arg, arg ∉ recognized_type_names → _get_json_type_for_py_type arg = "unknown") ∧
  (∀ arg, _get_json_type_for_py_type arg ∈ type_categories).
Proof.
  repeat (split; [reflexivity|]). split.
  - intros arg Hnot.
    assert (Hsub : ∀ l, l ⊆ recognized_type_names → arg ∉ l).
    { intros l Hl Hin. apply Hnot, Hl, Hin. }
    unfold _get_json_type_for_py_type.
    repeat (rewrite bool_decide_eq_false_2;
            [|apply Hsub, (bool_decide_unpack _); vm_compute; exact I]).
    done.
  - intros arg. unfold _get_json_type_for_py_type, type_categories.
    repeat case_bool_decide; apply (bool_decide_unpack _); vm_compute; exact I.
Qed.

Lemma json_type_for_py_type_mapping_witness :
  ("any" ∉ recognized_type_names) ∧ _get_json_type_for_py_type "any" = "unknown".
Proof.
  assert (Hany : "any" ∉ recognized_type_names).
  { apply (bool_decide_unpack _). vm_compute. exact I. }
  split.
  - exact Hany.
  - exact (proj1 (proj2 (proj2 (proj2 (proj2 (proj2 (proj2 (proj2
      (proj2 json_type_for_py_type_mapping)))))))) "any" Hany).
Defined.

(** ** The parameters of an operation *)


Lemma describe_parameter_total parsed p :
  nameable p → ∃ d, describe_parameter parsed p = Ok d.
Proof.
  unfold nameable, describe_parameter.
  destruct (p_annotation p); simpl; [eauto | eauto | intros []].
Qed.

(** The loop succeeds exactly on the parameters it keeps, one
    descriptor for each, in the order of the declaration. *)
Lemma describe_parameters_kept parsed params ds :
  describe_parameters parsed params = Ok ds →
  Forall2 (λ p d, describe_parameter parsed p = Ok d) (kept params) ds.
Proof.
  revert ds. induction params as [|p params IH]; intros ds; simpl.
  - intros [= <-]. constructor.
  - unfold kept. rewrite filter_cons.
    destruct (reserved (p_name p)) eqn:Hres.
    + rewrite decide_False by done. apply IH.
    + rewrite decide_True by done.
      destruct (describe_parameter parsed p) as [d|e] eqn:Hd; simpl; [|done].
      destruct (describe_parameters parsed params) as [ds'|e] eqn:Hds; simpl; [|done].
      intros [= <-]. constructor; [done | by apply IH].
Qed.

Lemma describe_parameters_total parsed params :
  Forall nameable (kept params) → ∃ ds, describe_parameters parsed params = Ok ds.
Proof.
  induction params as [|p params IH]; simpl; [eauto|].
  unfold kept. rewrite filter_cons.
  destruct (reserved (p_name p)) eqn:Hres.
  - rewrite decide_False by done. apply IH.
  - rewrite decide_True by done. intros [Hp Hrest]%Forall_cons.
    destruct (describe_parameter_total parsed p Hp) as [d ->].
    destruct (IH Hrest) as [ds ->]. simpl. eauto.
Qed.

(** C6: the introspection of a signature whose annotations have names
    returns one descriptor per kept parameter, and in each descriptor
    [optional] is true and [default] is the declared value when a
    default is declared, [optional] is false and [default] is null when
    none is. *)
Theorem optional_iff_default_declared parsed params :
  Forall nameable (kept params) →
  ∃ ds, describe_parameters parsed params = Ok ds ∧
    Forall2 (λ p d,
      pd_name d = p_name p ∧
      (pd_optional d = true ↔ is_Some (p_default p)) ∧
      match p_default p with
      | Some v => pd_optional d = true ∧ pd_default d = v
      | None => pd_optional d = false ∧ pd_default d = VNone
      end) (kept params) ds.
Proof.
  intros Hnames. destruct (describe_parameters_total parsed params Hnames) as [ds Hds].
  exists ds. split; [done|].
  eapply Forall2_impl; [by apply describe_parameters_kept|].
  intros p d. unfold describe_parameter.
  destruct (annotation_name (p_annotation p)) as [ty|e]; simpl; [|done].
  intros [= <-]. simpl. rewrite bool_decide_eq_true.
  destruct (p_default p) as [v|]; simpl.
  - repeat split; eauto.
  - repeat split; done.
Qed.


Lemma optional_iff_default_declared_witness :
  ∃ ds, describe_parameters [] example_signature = Ok ds ∧
    Forall2 (λ p d,
      pd_name d = p_name p ∧
      (pd_optional d = true ↔ is_Some (p_default p)) ∧
      match p_default p with
      | Some v => pd_optional d = true ∧ pd_default d = v
      | None => pd_optional d = false ∧ pd_default d = VNone
      end) (kept example_signature) ds.
Proof.
  apply (optional_iff_default_declared [] example_signature).
  repeat constructor.
Defined.

Lemma Forall2_elem_of_l {A B} (P : A → B → Prop) (l : list A) (k : list B) (x : A) :
  Forall2 P l k → x ∈ l → ∃ y, y ∈ k ∧ P x y.
Proof.
  intros HF [i Hi]%list_elem_of_lookup.
  destruct (Forall2_lookup_l _ _ _ _ _ HF Hi) as (y & Hy & HP).
  exists y. split; [|done]. apply list_elem_of_lookup. eauto.
Qed.

(** The claim of C8 as stated fails: a parameter declared without an
    annotation is given a category other than null. *)
Lemma unannotated_parameter_not_null :
  ¬ (∀ parsed p d, p_annotation p = AnnEmpty →
       describe_parameter parsed p = Ok d → pd_type d = "null").
Proof.
  intros H.
  specialize (H [] (mkParam "query" None AnnEmpty) _ eq_refl eq_refl).
  discriminate H.
Qed.

(** C8, amended: a kept parameter declared without an annotation gets a
    descriptor whose category is unknown, and that descriptor is among
    those the introspection of its signature returns. *)
Theorem unannotated_parameter_unknown parsed params p :
  p ∈ kept params → p_annotation p = AnnEmpty →
  ∃ d, describe_parameter parsed p = Ok d ∧
       pd_name d = p_name p ∧ pd_type d = "unknown" ∧
       ∀ ds, describe_parameters parsed params = Ok ds → d ∈ ds.
Proof.
  intros Hin Hann. unfold describe_parameter at 1. rewrite Hann. simpl.
  eexists. split; [reflexivity|]. repeat split.
  intros ds Hds.
  destruct (Forall2_elem_of_l _ _ _ _ (describe_parameters_kept _ _ _ Hds) Hin)
    as (d & Hd & Hdesc).
  unfold describe_parameter in Hdesc. rewrite Hann in Hdesc. simpl in Hdesc.
  by injection Hdesc as <-.
Qed.

Lemma unannotated_parameter_unknown_witness :
  ∃ d, describe_parameter [] (mkParam "query" None AnnEmpty) = Ok d ∧
       pd_name d = "query" ∧ pd_type d = "unknown" ∧
       ∀ ds, describe_parameters []
               [mkParam "self" None AnnEmpty; mkParam "query" None AnnEmpty] = Ok ds →
             d ∈ ds.
Proof.
  apply (unannotated_parameter_unknown []
           [mkParam "self" None AnnEmpty; mkParam "query" None AnnEmpty]
           (mkParam "query" None AnnEmpty)).
  - vm_compute. constructor.
  - reflexivity.
Defined.

(** ** Construction of an instance *)

(** C10: built from [None] or from an empty mapping, an instance holds
    the default configuration; built from a non-empty mapping, it holds
    that mapping as given. *)
Theorem init_configuration cls :
  Toolkit.init cls VNone = VObject cls Toolkit.default_configuration ∧
  Toolkit.init cls (VDict []) = VObject cls Toolkit.default_configuration ∧
  Toolkit.default_configuration
    = VDict [("config", VDict []); ("functions", VDict []); ("enable", VList [])] ∧
  ∀ kv d, Toolkit.init cls (VDict (kv :: d)) = VObject cls (VDict (kv :: d)).
Proof. repeat split. Qed.

(** ** Registration *)

Section registration.
Context {W : Type}.
Implicit Types (func : @PyFunction W) (tools : Registry).


(** The three ways a decoration with [tool_func] ends once the
    signature has been read. *)
Lemma tool_func_unregistered schema title desc func tools args :
  describe_parameters (fn_doc func) (fn_signature func) = Ok args →
  tools !! split_head (fn_qualname func) = None →
  tool_func schema title desc func tools
    = Raise (ValueError ("Tool " ++ split_head (fn_qualname func) ++ " is not registered")).
Proof. intros Hargs Hnone. unfold tool_func. rewrite Hargs. simpl. by rewrite Hnone. Qed.

Lemma tool_func_duplicate schema title desc func tools args d :
  describe_parameters (fn_doc func) (fn_signature func) = Ok args →
  tools !! split_head (fn_qualname func) = Some d →
  is_Some (tc_functions d !! fn_name func) →
  tool_func schema title desc func tools
    = Raise (ValueError ("Tool " ++ fn_name func ++ " is already registered in "
                         ++ split_head (fn_qualname func))).
Proof.
  intros Hargs Hd Hdup. unfold tool_func. rewrite Hargs. simpl. rewrite Hd.
  by rewrite bool_decide_eq_true_2.
Qed.

Lemma tool_func_registered schema title desc func tools args d :
  describe_parameters (fn_doc func) (fn_signature func) = Ok args →
  tools !! split_head (fn_qualname func) = Some d →
  tc_functions d !! fn_name func = None →
  tool_func schema title desc func tools
    = Ok (wrapper func,
          <[split_head (fn_qualname func) :=
              add_function (fn_name func) (operation_record schema title desc func) d]> tools).
Proof.
  intros Hargs Hd Hnew. unfold tool_func. rewrite Hargs. simpl. rewrite Hd.
  rewrite bool_decide_eq_false_2; [done|]. rewrite Hnew. by intros [? ?].
Qed.

(** Whatever [tool_func] returns, it has stored [operation_record]
    under the class and the name of the operation. *)
Lemma tool_func_inv schema title desc func tools wrapped tools' :
  tool_func schema title desc func tools = Ok (wrapped, tools') →
  wrapped = wrapper func ∧
  ∃ d, tools !! split_head (fn_qualname func) = Some d ∧
       tc_functions d !! fn_name func = None ∧
       tools' = <[split_head (fn_qualname func) :=
                    add_function (fn_name func) (operation_record schema title desc func) d]>
                  tools.
Proof.
  unfold tool_func.
  destruct (describe_parameters _ _) as [args|e]; simpl; [|done].
  destruct (tools !! split_head (fn_qualname func)) as [d|] eqn:Hd; simpl; [|done].
  case_bool_decide as Hdup; simpl; [done|].
  intros [= <- <-]. split; [done|]. exists d. repeat split.
  destruct (tc_functions d !! fn_name func) eqn:Hf; [|done].
  exfalso. apply Hdup. eauto.
Qed.

Lemma tool_func_stores_record schema title desc func tools wrapped tools' :
  tool_func schema title desc func tools = Ok (wrapped, tools') →
  Toolkit.tool (split_head (fn_qualname func)) (Some (fn_name func)) tools'
    = Ok (inr (operation_record schema title desc func)).
Proof.
  intros (_ & d & Hd & Hnew & ->)%tool_func_inv.
  unfold Toolkit.tool. rewrite lookup_insert_eq. simpl. by rewrite lookup_insert_eq.
Qed.
End registration.

(** C5: when the class is registered and already has an operation of
    that name, [Toolkit.register] raises the error of the duplicate, and
    so does the decoration with [tool_func] that calls it: nothing
    between the two catches it. *)
Theorem duplicate_operation_rejected (n tc : string) (tools : Registry) (d : ContainerRecord) :
  tools !! tc = Some d →
  is_Some (tc_functions d !! n) →
  (∀ kwargs, Toolkit.register n (Some tc) kwargs tools
             = Raise (ValueError ("Tool " ++ n ++ " is already registered in " ++ tc))) ∧
  (∀ W schema title desc (func : @PyFunction W) args,
     fn_name func = n → split_head (fn_qualname func) = tc →
     describe_parameters (fn_doc func) (fn_signature func) = Ok args →
     tool_func schema title desc func tools
     = Raise (ValueError ("Tool " ++ n ++ " is already registered in " ++ tc))).
Proof.
  intros Hd Hdup. split.
  - intros kwargs. simpl. rewrite Hd. by rewrite bool_decide_eq_true_2.
  - intros W schema title desc func args <- <- Hargs.
    by eapply tool_func_duplicate.
Qed.


Lemma tool_registers_C : tool None None None None None (mkClass "C" None) ∅
                         = Ok (mkClass "C" None, registry_C).
Proof. reflexivity. Qed.

Lemma tool_func_registers_op :
  tool_func None None None example_op registry_C = Ok (wrapper example_op, registry_C_op).
Proof.
  eapply (tool_func_registered None None None example_op registry_C).
  - reflexivity.
  - apply lookup_insert_eq.
  - apply lookup_empty.
Qed.

Lemma duplicate_operation_rejected_witness :
  (∀ kwargs, Toolkit.register "op" (Some "C") kwargs registry_C_op
             = Raise (ValueError ("Tool " ++ "op" ++ " is already registered in " ++ "C"))) ∧
  (∀ W schema title desc (func : @PyFunction W) args,
     fn_name func = "op" → split_head (fn_qualname func) = "C" →
     describe_parameters (fn_doc func) (fn_signature func) = Ok args →
     tool_func schema title desc func registry_C_op
     = Raise (ValueError ("Tool " ++ "op" ++ " is already registered in " ++ "C"))).
Proof.
  apply (duplicate_operation_rejected "op" "C" registry_C_op
           (add_function "op" (operation_record None None None example_op) container_C)).
  - apply lookup_insert_eq.
  - simpl. rewrite lookup_insert_eq. eauto.
Defined.

(** C2: the record stored for a decorated operation has no descriptor
    at all under [parameters], whatever the signature and the
    documentation of the operation are. *)
Theorem registered_parameters_empty {W} schema title desc (func : @PyFunction W)
    (tools tools' : Registry) wrapped :
  tool_func schema title desc func tools = Ok (wrapped, tools') →
  ∃ r, Toolkit.tool (split_head (fn_qualname func)) (Some (fn_name func)) tools' = Ok (inr r) ∧
       op_parameters r = ∅ ∧
       ∀ n, op_parameters r !! n = None.
Proof.
  intros Hdec. exists (operation_record schema title desc func).
  split; [by eapply tool_func_stores_record|]. split; [done|].
  intros n. apply lookup_empty.
Qed.

Lemma registered_parameters_empty_witness :
  ∃ r, Toolkit.tool "C" (Some "op") registry_C_op = Ok (inr r) ∧
       op_parameters r = ∅ ∧
       ∀ n, op_parameters r !! n = None.
Proof.
  exact (registered_parameters_empty None None None example_op registry_C registry_C_op
           (wrapper example_op) tool_func_registers_op).
Defined.

(** The documented parameter [query] of [C.op] is described by the
    introspection and missing from the registry. *)
Lemma query_described_not_registered :
  describe_parameters (fn_doc example_op) (fn_signature example_op)
    = Ok [{| pd_name := "query"; pd_description := Some "The text to look for.";
             pd_optional := false; pd_default := VNone; pd_type := "unknown" |}] ∧
  ∃ r, Toolkit.tool "C" (Some "op") registry_C_op = Ok (inr r) ∧
       op_parameters r !! "query" = None.
Proof.
  split; [reflexivity|].
  exists (operation_record None None None example_op). split; [|done].
  exact (tool_func_stores_record _ _ _ _ _ _ _ tool_func_registers_op).
Qed.

(** ** The wrapped operation *)


Section wrapped.
Context {W : Type}.
Implicit Types (func : @PyFunction W) (w : W).

(** A method call that reads its configuration runs the function on
    the same receiver and positional arguments, with [_config] set. *)
Lemma wrapper_call_injects func self args kwargs config w :
  dict_get "self" kwargs = None →
  injected_config self = Ok config →
  fn_call (wrapper func) (self :: args) kwargs w
    = fn_call func (self :: args) (dict_set "_config" config kwargs) w.
Proof.
  intros Hself Hconfig. simpl. unfold wrapper_call, bind_wrapper.
  rewrite Hself. rewrite bool_decide_eq_false_2 by (by intros [? ?]).
  unfold mbind, Eff_bind, lift. by rewrite Hconfig.
Qed.

(** A failure to read the configuration leaves the wrapper before the
    function is called. *)
Lemma wrapper_call_config_raises func self args kwargs e w :
  dict_get "self" kwargs = None →
  injected_config self = Raise e →
  fn_call (wrapper func) (self :: args) kwargs w = (Raise e, w).
Proof.
  intros Hself Hconfig. simpl. unfold wrapper_call, bind_wrapper.
  rewrite Hself. rewrite bool_decide_eq_false_2 by (by intros [? ?]).
  unfold mbind, Eff_bind, lift. by rewrite Hconfig.
Qed.
End wrapped.

Lemma injected_config_functions cls conf fns :
  dict_get "functions" conf = Some (VDict fns) →
  injected_config (VObject cls (VDict conf)) = Ok (default (VDict []) (dict_get "config" fns)).
Proof. intros Hf. unfold injected_config. simpl. by rewrite Hf. Qed.

(** Without [functions] the injected value is the empty string of the
    fallback [{"config": ""}]. *)
Lemma injected_config_no_functions cls conf :
  dict_get "functions" conf = None →
  injected_config (VObject cls (VDict conf)) = Ok (VStr "").
Proof. intros Hf. unfold injected_config. simpl. by rewrite Hf. Qed.

Lemma injected_config_well_configured self :
  well_configured self → ∃ config, injected_config self = Ok config.
Proof.
  intros (cls & conf & -> & Hfns).
  destruct (dict_get "functions" conf) as [v|] eqn:Hf.
  - destruct (Hfns v eq_refl) as [fns ->]. erewrite injected_config_functions; eauto.
  - rewrite injected_config_no_functions; eauto.
Qed.

(** The claim of C3 as stated fails: the instance has no entry for
    [op] under [functions], and [op] receives a configuration that is
    not empty. *)
Lemma injected_config_not_by_name :
  ¬ has_functions_entry instance_with_shared_config (fn_name example_op) ∧
  fn_call (wrapper example_op) [instance_with_shared_config; VStr "hello"] [] ()
    = (Ok (VDict [("num_results", VInt 5)]), ()) ∧
  fn_call (wrapper example_op) [instance_with_shared_config; VStr "hello"] [] ()
    ≠ fn_call example_op [instance_with_shared_config; VStr "hello"] [("_config", VDict [])] ().
Proof.
  split; [|split].
  - intros (cls & conf & fns & v & [= <- <-] & [= <-] & Hop). discriminate Hop.
  - reflexivity.
  - discriminate.
Qed.

(** An entry under the name of the operation is not what is injected,
    and an instance without [functions] injects a string. *)
Lemma injected_config_other_instances :
  has_functions_entry instance_with_op_config (fn_name example_op) ∧
  fn_call (wrapper example_op) [instance_with_op_config; VStr "hello"] [] ()
    = (Ok (VDict []), ()) ∧
  fn_call (wrapper example_op) [instance_without_functions; VStr "hello"] [] ()
    = (Ok (VStr ""), ()).
Proof.
  split; [|split]; [|reflexivity..].
  by exists "C", [("functions", VDict [("op", VDict [("num_results", VInt 5)])])],
            [("op", VDict [("num_results", VInt 5)])], (VDict [("num_results", VInt 5)]).
Qed.

(** C3, amended: on an instance whose configuration holds a mapping
    under [functions], the call of a wrapped operation injects the value
    that mapping holds under the fixed key [config], and an empty
    configuration when it holds none; the name of the operation plays
    no part, and the wrapper raises nothing of its own. *)
Theorem injected_config_fixed_key {W} (func : @PyFunction W) cls conf fns args kwargs w :
  dict_get "self" kwargs = None →
  dict_get "functions" conf = Some (VDict fns) →
  injected_config (VObject cls (VDict conf)) = Ok (default (VDict []) (dict_get "config" fns)) ∧
  (dict_get "config" fns = None → injected_config (VObject cls (VDict conf)) = Ok (VDict [])) ∧
  fn_call (wrapper func) (VObject cls (VDict conf) :: args) kwargs w
    = fn_call func (VObject cls (VDict conf) :: args)
        (dict_set "_config" (default (VDict []) (dict_get "config" fns)) kwargs) w.
Proof.
  intros Hself Hf.
  pose proof (injected_config_functions cls conf fns Hf) as Hinj.
  split; [done|]. split.
  - intros Hnone. by rewrite Hinj, Hnone.
  - by apply wrapper_call_injects.
Qed.

Lemma injected_config_fixed_key_witness :
  injected_config (Toolkit.init "C" VNone) = Ok (VDict []) ∧
  fn_call (wrapper example_op) [Toolkit.init "C" VNone; VStr "hello"] [] ()
    = fn_call example_op [Toolkit.init "C" VNone; VStr "hello"] [("_config", VDict [])] ().
Proof.
  destruct (injected_config_fixed_key example_op "C"
              [("config", VDict []); ("functions", VDict []); ("enable", VList [])]
              [] [VStr "hello"] [] () eq_refl eq_refl) as (Hinj & _ & Hcall).
  split; [exact Hinj | exact Hcall].
Defined.

(** The claim of C4 as stated fails.  The operation [op] accepts its
    configuration as a third positional argument and the wrapper
    refuses that call; and on an instance whose [functions] is a list
    the wrapper raises an [AttributeError] of its own, although [op]
    would return for every configuration it could be given: there the
    wrapped call is the call of the operation for no injected value. *)
Lemma wrapper_not_transparent :
  fn_call example_op
    [Toolkit.init "C" VNone; VStr "hello"; VDict [("num_results", VInt 5)]] [] ()
    = (Ok (VDict [("num_results", VInt 5)]), ()) ∧
  fn_call (wrapper example_op)
    [Toolkit.init "C" VNone; VStr "hello"; VDict [("num_results", VInt 5)]] [] ()
    = (Raise (TypeError "C.op() got multiple values for argument '_config'"), ()) ∧
  fn_call (wrapper example_op) [instance_with_list_functions; VStr "hello"] [] ()
    = (Raise (AttributeError "'list' object has no attribute 'get'"), ()) ∧
  (∀ config,
     fn_call example_op [instance_with_list_functions; VStr "hello"] [("_config", config)] ()
     = (Ok config, ())) ∧
  ¬ (∀ (func : @PyFunction unit) self args kwargs w,
       ∃ config,
         fn_call (wrapper func) (self :: args) kwargs w
         = fn_call func (self :: args) (dict_set "_config" config kwargs) w).
Proof.
  split; [reflexivity|]. split; [reflexivity|]. split; [reflexivity|].
  split; [intros config; reflexivity|].
  intros Hall.
  destruct (Hall example_op instance_with_list_functions [VStr "hello"] [] ())
    as [config Hcall].
  discriminate Hcall.
Qed.

(** C4, amended: the wrapper reports the signature of the operation to
    introspection, and a method call on an instance whose configuration
    is a mapping that holds a mapping under [functions], if anything,
    the receiver not being passed again by keyword, is the call of the
    operation itself with the same receiver, the same positional
    arguments and the same keyword arguments except [_config], which is
    the injected value: its value, its exception and its effects are
    those of that call of the operation. *)
Theorem wrapper_forwards {W} (func : @PyFunction W) self args kwargs w :
  well_configured self →
  dict_get "self" kwargs = None →
  fn_signature (wrapper func) = fn_signature func ∧
  ∃ config,
    injected_config self = Ok config ∧
    fn_call (wrapper func) (self :: args) kwargs w
      = fn_call func (self :: args) (dict_set "_config" config kwargs) w ∧
    dict_get "_config" (dict_set "_config" config kwargs) = Some config ∧
    ∀ k, k ≠ "_config" → dict_get k (dict_set "_config" config kwargs) = dict_get k kwargs.
Proof.
  intros Hwell Hself. split; [done|].
  destruct (injected_config_well_configured self Hwell) as [config Hconfig].
  exists config. split; [done|]. split; [by apply wrapper_call_injects|]. split.
  - apply dict_get_set_eq.
  - intros k Hk. by apply dict_get_set_ne.
Qed.

Lemma init_well_configured cls : well_configured (Toolkit.init cls VNone).
Proof.
  exists cls, [("config", VDict []); ("functions", VDict []); ("enable", VList [])].
  split; [reflexivity|]. intros v [= <-]. eauto.
Qed.

Lemma wrapper_forwards_witness :
  fn_signature (wrapper example_op) = fn_signature example_op ∧
  ∃ config,
    injected_config (Toolkit.init "C" VNone) = Ok config ∧
    fn_call (wrapper example_op) [Toolkit.init "C" VNone; VStr "hello"] [] ()
      = fn_call example_op [Toolkit.init "C" VNone; VStr "hello"]
          (dict_set "_config" config []) () ∧
    dict_get "_config" (dict_set "_config" config []) = Some config ∧
    ∀ k, k ≠ "_config" → dict_get k (dict_set "_config" config []) = dict_get k [].
Proof.
  exact (wrapper_forwards example_op (Toolkit.init "C" VNone) [VStr "hello"] [] ()
           (init_well_configured "C") eq_refl).
Defined.

(** An exception of the operation leaves the wrapper as it is, and a
    configuration given positionally collides with the injected one. *)
Lemma wrapper_propagates_exceptions :
  fn_call (wrapper failing_op) [Toolkit.init "C" VNone; VStr "hello"] [] ()
    = (Raise (ValueError "no result"), ()) ∧
  fn_call (wrapper example_op) [Toolkit.init "C" VNone; VStr "hello"; VDict []] [] ()
    = (Raise (TypeError "C.op() got multiple values for argument '_config'"), ()).
Proof. split; reflexivity. Qed.

(** ** The plugin *)

Section serpapi_facts.
Context {W : Type}.
Variable import_serpapi : string → @Eff W unit.
Variable serpapi_get_dict : string → PyVal → @Eff W PyVal.
Variable subprocess_run : list string → @Eff W unit.
Variable logger_exception : PyExc → W → W.
Variable google_doc youtube_doc : list DocParam.
Variable SerpApiConfig SearchConfig : PyVal.
Variable ToolCategory_Search : option string.

Lemma eff_bind_ok {A B} (m : @Eff W A) (f : A → @Eff W B) w a w' :
  m w = (Ok a, w') → (m ≫= f) w = f a w'.
Proof. intros Hm. unfold mbind, Eff_bind. by rewrite Hm. Qed.

Lemma eff_bind_raise {A B} (m : @Eff W A) (f : A → @Eff W B) w e w' :
  m w = (Raise e, w') → (m ≫= f) w = (Raise e, w').
Proof. intros Hm. unfold mbind, Eff_bind. by rewrite Hm. Qed.

Lemma eff_bind_lift {A B} (a : A) (f : A → @Eff W B) w : (lift (Ok a) ≫= f) w = f a w.
Proof. reflexivity. Qed.

(** [install_package] always returns. *)
Lemma install_package_returns package (w : W) :
  ∃ b, install_package subprocess_run package w
       = (Ok b, (install_package subprocess_run package w).2).
Proof.
  unfold install_package. destruct (subprocess_run _ w) as [[[]|e] w']; simpl; eauto.
Qed.

(** Binding the call [search(self, query, _config=config)]. *)
Lemma bind_search_call qualname self query config :
  bind_arguments qualname search_params [self; query] [("_config", config)]
  = Ok [("self", self); ("query", query); ("_config", config)].
Proof. vm_compute. reflexivity. Qed.

(** Binding the call [search(self, query, config, _config=config')]. *)
Lemma bind_search_collision qualname self query config config' :
  bind_arguments qualname search_params [self; query; config] [("_config", config')]
  = Raise (TypeError (qualname ++ "() got multiple values for argument '_config'")).
Proof. vm_compute. reflexivity. Qed.

(** A call of a decorated search method that already carries the
    configuration as its third positional argument is refused when
    the arguments are bound. *)
Lemma retry_refused n qualname doc body self query config config' (w : W) :
  injected_config self = Ok config' →
  fn_call (wrapper (def_function n qualname doc search_params body))
          [self; query; config] [] w
  = (Raise (TypeError (qualname ++ "() got multiple values for argument '_config'")), w).
Proof.
  intros Hconfig.
  rewrite (wrapper_call_injects _ self [query; config] [] config' w eq_refl Hconfig).
  unfold def_function, fn_call, dict_set.
  unfold mbind, Eff_bind, lift. by rewrite bind_search_collision.
Qed.

(** The first call of a decorated search method when the import of
    the backend fails: the package is installed, the method is called
    again with the configuration in third position, and the
    [TypeError] of that call leaves the handler. *)
Lemma search_import_failure n qualname doc cls key method_body
      self query config msg (w w1 : W) :
  injected_config self = Ok config →
  import_serpapi cls w = (Raise (ImportError msg), w1) →
  fn_call (wrapper (def_function n qualname doc search_params
             (search import_serpapi serpapi_get_dict subprocess_run logger_exception cls key
                (wrapper (def_function n qualname doc search_params method_body)))))
          [self; query] [] w
  = (Raise (TypeError (qualname ++ "() got multiple values for argument '_config'")),
     (install_package subprocess_run "google-search-results" w1).2).
Proof.
  intros Hconfig Himport.
  rewrite (wrapper_call_injects _ self [query] [] config w eq_refl Hconfig).
  unfold def_function at 1, fn_call at 1, dict_set.
  unfold mbind at 1, Eff_bind at 1, lift at 1. rewrite bind_search_call.
  unfold search.
  change (local "self" [("self", self); ("query", query); ("_config", config)]) with self.
  change (local "query" [("self", self); ("query", query); ("_config", config)]) with query.
  change (local "_config" [("self", self); ("query", query); ("_config", config)])
    with config.
  rewrite (eff_bind_raise _ _ _ _ _ Himport). simpl is_ImportError. cbv iota.
  destruct (install_package_returns "google-search-results" w1) as [b Hinstall].
  rewrite (eff_bind_ok _ _ _ _ _ Hinstall).
  rewrite (eff_bind_raise _ _ _ _ _
             (retry_refused n qualname doc method_body self query config config _ Hconfig)).
  by rewrite Hinstall.
Qed.
(** C9, at the input where it fails: when the import of the backend
    raises [ImportError], a call of [search_google] or of
    [search_youtube] on an instance whose configuration can be read
    installs the package and then raises a [TypeError] to its caller;
    no error result is returned. *)
Theorem import_failure_propagates depth self query config :
  injected_config self = Ok config →
  (∀ msg (w w1 : W),
     import_serpapi "GoogleSearch" w = (Raise (ImportError msg), w1) →
     fn_call (search_google import_serpapi serpapi_get_dict subprocess_run logger_exception
                google_doc (S (S depth))) [self; query] [] w
     = (Raise (TypeError
          "SerpApiTool.search_google() got multiple values for argument '_config'"),
        (install_package subprocess_run "google-search-results" w1).2)) ∧
  (∀ msg (w w1 : W),
     import_serpapi "YoutubeSearch" w = (Raise (ImportError msg), w1) →
     fn_call (search_youtube import_serpapi serpapi_get_dict subprocess_run logger_exception
                youtube_doc (S (S depth))) [self; query] [] w
     = (Raise (TypeError
          "SerpApiTool.search_youtube() got multiple values for argument '_config'"),
        (install_package subprocess_run "google-search-results" w1).2)).
Proof.
  intros Hconfig. split; intros msg w w1 Himport.
  - exact (search_import_failure "search_google" "SerpApiTool.search_google" google_doc
             "GoogleSearch" "organic_results" _ self query config msg w w1 Hconfig Himport).
  - exact (search_import_failure "search_youtube" "SerpApiTool.search_youtube" youtube_doc
             "YoutubeSearch" "videos" _ self query config msg w w1 Hconfig Himport).
Qed.

(** A failure of the backend other than a failed import is logged and
    returned as an error result. *)
Lemma backend_failure_reported depth cls conf fns cfg query e (w w1 w2 : W) :
  dict_get "functions" conf = Some (VDict fns) →
  dict_get "config" fns = Some (VDict cfg) →
  import_serpapi "GoogleSearch" w = (Ok (), w1) →
  serpapi_get_dict "GoogleSearch"
    (VDict [("q", query); ("num", default VNone (dict_get "num_results" cfg));
            ("api_key", default (VStr "") (dict_get "api_key" conf))]) w1
    = (Raise e, w2) →
  is_ImportError e = false →
  fn_call (search_google import_serpapi serpapi_get_dict subprocess_run logger_exception
             google_doc (S depth)) [VObject cls (VDict conf); query] [] w
  = (Ok (VDict [("error", VStr (exc_str e))]), logger_exception e w2).
Proof.
  intros Hfns Hcfg Himport Hsearch Hnot.
  simpl search_google. unfold search_google_def.
  rewrite (wrapper_call_injects _ _ [query] [] (VDict cfg) w eq_refl).
  2:{ rewrite (injected_config_functions _ _ _ Hfns). by rewrite Hcfg. }
  unfold def_function at 1, fn_call at 1, dict_set.
  unfold mbind at 1, Eff_bind at 1, lift at 1. rewrite bind_search_call.
  unfold search.
  change (local "self" [("self", ?s); ("query", ?q); ("_config", ?c)]) with s.
  change (local "query" [("self", ?s); ("query", ?q); ("_config", ?c)]) with q.
  change (local "_config" [("self", ?s); ("query", ?q); ("_config", ?c)]) with c.
  rewrite (eff_bind_ok _ _ _ _ _ Himport).
  cbn [py_get]. rewrite eff_bind_lift.
  unfold api_key, get_configuration. cbn [mbind Res_bind py_get]. rewrite eff_bind_lift.
  rewrite (eff_bind_raise _ _ _ _ _ Hsearch). by rewrite Hnot.
Qed.

(** C1, at the input where it fails: loading the plugin into an empty
    registry decorates [search_google] before the class is
    registered, and the decoration raises. *)
Theorem operation_before_container_raises depth :
  load_serpapi import_serpapi serpapi_get_dict subprocess_run logger_exception
    google_doc youtube_doc SerpApiConfig SearchConfig ToolCategory_Search depth ∅
  = Raise (ValueError "Tool SerpApiTool is not registered").
Proof.
  unfold load_serpapi.
  erewrite tool_func_unregistered; [reflexivity | reflexivity | apply lookup_empty].
Qed.
End serpapi_facts.

Lemma import_failure_propagates_witness :
  injected_config serp_api_tool = Ok (VStr "") ∧
  fn_call (search_google offline_import offline_get_dict offline_subprocess_run offline_logger
             [] 2) [serp_api_tool; VStr "who is PM of USA"] [] false
  = (Raise (TypeError
       "SerpApiTool.search_google() got multiple values for argument '_config'"), true) ∧
  fn_call (search_youtube offline_import offline_get_dict offline_subprocess_run offline_logger
             [] 2) [serp_api_tool; VStr "who is PM of USA"] [] false
  = (Raise (TypeError
       "SerpApiTool.search_youtube() got multiple values for argument '_config'"), true).
Proof.
  destruct (import_failure_propagates offline_import offline_get_dict offline_subprocess_run
              offline_logger [] [] 0 serp_api_tool (VStr "who is PM of USA") (VStr "") eq_refl)
    as [Hgoogle Hyoutube].
  split; [reflexivity|]. split.
  - exact (Hgoogle "No module named 'serpapi'" false false eq_refl).
  - exact (Hyoutube "No module named 'serpapi'" false false eq_refl).
Defined.

(** The call of [test/serp_test.py], which passes the configuration
    positionally, is refused before the body of the operation runs. *)
Lemma serp_test_call_refused :
  fn_call (search_google offline_import offline_get_dict offline_subprocess_run offline_logger
             [] 2)
    [serp_api_tool; VStr "who is PM of USA"; VDict [("num_results", VInt 5)]] [] true
  = (Raise (TypeError
       "SerpApiTool.search_google() got multiple values for argument '_config'"), true).
Proof. reflexivity. Qed.

(** * Further properties of the code *)

(** ** The type mapping, name by name *)

Lemma json_type_unrecognized arg :
  arg ∉ recognized_type_names → _get_json_type_for_py_type arg = "unknown".
Proof.
  intros Hnot.
  assert (Hsub : ∀ l, l ⊆ recognized_type_names → arg ∉ l).
  { intros l Hl Hin. apply Hnot, Hl, Hin. }
  unfold _get_json_type_for_py_type.
  repeat (rewrite bool_decide_eq_false_2;
          [|apply Hsub, (bool_decide_unpack _); vm_compute; exact I]).
  done.
Qed.

(** X1: each category is returned for exactly the names the function
    lists for it: four names give number, two string, two boolean, two
    null, four array, two object, and unknown is the answer exactly for
    the names outside those sixteen. *)
Theorem json_type_inverse_images arg :
  (_get_json_type_for_py_type arg = "number" ↔ arg ∈ ["int"; "float"; "complex"; "Decimal"]) ∧
  (_get_json_type_for_py_type arg = "string" ↔ arg ∈ ["str"; "string"]) ∧
  (_get_json_type_for_py_type arg = "boolean" ↔ arg ∈ ["bool"; "boolean"]) ∧
  (_get_json_type_for_py_type arg = "null" ↔ arg ∈ ["NoneType"; "None"]) ∧
  (_get_json_type_for_py_type arg = "array" ↔ arg ∈ ["list"; "tuple"; "set"; "frozenset"]) ∧
  (_get_json_type_for_py_type arg = "object" ↔ arg ∈ ["dict"; "mapping"]) ∧
  (_get_json_type_for_py_type arg = "unknown" ↔ arg ∉ recognized_type_names).
Proof.
  destruct (decide (arg ∈ recognized_type_names)) as [Hin|Hnot].
  - unfold recognized_type_names in Hin.
    repeat (apply elem_of_cons in Hin as [->|Hin];
            [apply (bool_decide_unpack _); vm_compute; exact I|]).
    by apply elem_of_nil in Hin.
  - rewrite (json_type_unrecognized arg Hnot).
    assert (Hsub : ∀ l, l ⊆ recognized_type_names → arg ∉ l).
    { intros l Hl Hin. apply Hnot, Hl, Hin. }
    repeat (split; [split; [discriminate|];
                    intros Hin; exfalso; revert Hin;
                    apply Hsub, (bool_decide_unpack _); vm_compute; exact I|]).
    done.
Qed.

(** ** The loop over the parameters *)

Lemma describe_parameter_name parsed p d :
  describe_parameter parsed p = Ok d →
  pd_name d = p_name p ∧ pd_description d = doc_description parsed (p_name p) ∧ nameable p.
Proof.
  unfold describe_parameter, nameable.
  destruct (p_annotation p); simpl; intros [= <-]; done.
Qed.

Lemma kept_not_reserved params : Forall (λ p, reserved (p_name p) = false) (kept params).
Proof. apply Forall_forall. intros p Hp. by apply list_elem_of_filter in Hp as [? _]. Qed.

(** X2: the descriptors carry the names of the parameters other than
    [self] and [_config], in the order of the declaration, and no
    descriptor is named [self] or [_config]. *)
Theorem describe_parameters_names parsed params ds :
  describe_parameters parsed params = Ok ds →
  pd_name <$> ds = p_name <$> kept params ∧
  Forall (λ d, pd_name d ≠ "self" ∧ pd_name d ≠ "_config") ds.
Proof.
  intros Hds. apply describe_parameters_kept in Hds.
  pose proof (kept_not_reserved params) as Hres.
  induction Hds as [|p d ps ds' Hd _ IH]; [by split; constructor|].
  apply Forall_cons in Hres as [Hp Hps].
  destruct (IH Hps) as [Hnames Hall].
  apply describe_parameter_name in Hd as (Hname & _ & _).
  split.
  - rewrite !fmap_cons. by rewrite Hname, Hnames.
  - constructor; [|done]. rewrite Hname. unfold reserved in Hp.
    apply orb_false_iff in Hp as [H1 H2].
    by apply bool_decide_eq_false in H1, H2.
Qed.

Lemma describe_parameters_names_witness :
  pd_name <$> [ {| pd_name := "query"; pd_description := Some ""; pd_optional := false;
                   pd_default := VNone; pd_type := "string" |};
                {| pd_name := "limit"; pd_description := Some ""; pd_optional := true;
                   pd_default := VInt 10; pd_type := "number" |} ]
    = p_name <$> kept example_signature ∧
  Forall (λ d, pd_name d ≠ "self" ∧ pd_name d ≠ "_config")
    [ {| pd_name := "query"; pd_description := Some ""; pd_optional := false;
         pd_default := VNone; pd_type := "string" |};
      {| pd_name := "limit"; pd_description := Some ""; pd_optional := true;
         pd_default := VInt 10; pd_type := "number" |} ].
Proof. exact (describe_parameters_names [] example_signature _ eq_refl). Defined.

Lemma describe_parameters_raise parsed params e :
  describe_parameters parsed params = Raise e →
  ∃ p ty, p ∈ kept params ∧ p_annotation p = AnnUnnamed ty ∧
          e = AttributeError ("'" ++ ty ++ "' object has no attribute '__name__'").
Proof.
  induction params as [|p params IH]; simpl; [done|].
  unfold kept. rewrite filter_cons.
  destruct (reserved (p_name p)) eqn:Hres.
  - rewrite decide_False by done. intros (q & ty & Hq & Hrest)%IH. eauto.
  - rewrite decide_True by done. unfold describe_parameter.
    destruct (p_annotation p) as [|n|ty] eqn:Hann; simpl.
    + destruct (describe_parameters parsed params) as [ds|e'] eqn:Hds; simpl; [done|].
      intros [= <-]. destruct (IH eq_refl) as (q & ty & Hq & Hrest).
      exists q, ty. split; [by apply elem_of_cons; right | done].
    + destruct (describe_parameters parsed params) as [ds|e'] eqn:Hds; simpl; [done|].
      intros [= <-]. destruct (IH eq_refl) as (q & ty & Hq & Hrest).
      exists q, ty. split; [by apply elem_of_cons; right | done].
    + intros [= <-]. exists p, ty. split; [by apply elem_of_cons; left | done].
Qed.

(** X3: the loop returns exactly when every parameter it keeps is
    unannotated or annotated with an object that has a [__name__];
    otherwise it raises the [AttributeError] of a kept parameter whose
    annotation has none.  The annotations of [self] and [_config] are
    never read. *)
Theorem describe_parameters_returns_iff parsed params :
  (Forall nameable (kept params) ↔ ∃ ds, describe_parameters parsed params = Ok ds) ∧
  (∀ e, describe_parameters parsed params = Raise e →
        ∃ p ty, p ∈ kept params ∧ p_annotation p = AnnUnnamed ty ∧
                e = AttributeError ("'" ++ ty ++ "' object has no attribute '__name__'")).
Proof.
  split; [split|].
  - apply describe_parameters_total.
  - intros [ds Hds]. apply describe_parameters_kept in Hds.
    induction Hds as [|p d ps ds' Hd _ IH]; constructor; [|done].
    by apply describe_parameter_name in Hd as (_ & _ & Hn).
  - apply describe_parameters_raise.
Qed.

Lemma kept_idemp params : kept (kept params) = kept params.
Proof.
  unfold kept. induction params as [|p params IH]; [done|].
  rewrite filter_cons. case_decide as Hres; [|done].
  rewrite filter_cons. rewrite decide_True by done. by rewrite IH.
Qed.

(** X4: wherever [self] and [_config] stand in the declaration, the
    loop gives what it gives on the declaration without them. *)
Theorem describe_parameters_skips_reserved parsed params :
  describe_parameters parsed params = describe_parameters parsed (kept params).
Proof.
  induction params as [|p params IH]; [done|].
  unfold kept. rewrite filter_cons. simpl.
  destruct (reserved (p_name p)) eqn:Hres.
  - rewrite decide_False by done. apply IH.
  - rewrite decide_True by done. simpl. rewrite Hres. by rewrite IH.
Qed.

Lemma doc_description_undocumented parsed n :
  n ∉ arg_name <$> parsed → doc_description parsed n = Some "".
Proof.
  induction parsed as [|e parsed IH]; simpl; [done|].
  intros Hnot. apply not_elem_of_cons in Hnot as [Hne Hrest].
  rewrite decide_False by done. by apply IH.
Qed.

Lemma doc_description_first pre e post n :
  arg_name e = n → n ∉ arg_name <$> pre →
  doc_description (pre ++ e :: post) n = description e.
Proof.
  intros He. induction pre as [|e' pre IH]; simpl.
  - intros _. by rewrite decide_True.
  - intros Hnot. apply not_elem_of_cons in Hnot as [Hne Hrest].
    rewrite decide_False by done. by apply IH.
Qed.

(** X5: the description of a descriptor is that of the first documented
    parameter of the same name, and the empty string when the docstring
    documents no parameter of that name. *)
Theorem describe_parameters_descriptions parsed params ds d :
  describe_parameters parsed params = Ok ds → d ∈ ds →
  (pd_name d ∉ arg_name <$> parsed → pd_description d = Some "") ∧
  (∀ pre e post, parsed = (pre ++ e :: post)%list → arg_name e = pd_name d →
                 pd_name d ∉ arg_name <$> pre → pd_description d = description e).
Proof.
  intros Hds Hd. apply describe_parameters_kept in Hds.
  apply Forall2_flip in Hds.
  destruct (Forall2_elem_of_l _ _ _ _ Hds Hd) as (p & _ & Hp).
  apply describe_parameter_name in Hp as (Hname & Hdesc & _).
  rewrite Hdesc, Hname. split.
  - apply doc_description_undocumented.
  - intros pre e post -> He Hpre. by apply doc_description_first.
Qed.

Lemma describe_parameters_descriptions_witness :
  Some "The text to look for." = description (mkDocParam "query" (Some "The text to look for.")).
Proof.
  refine (proj2 (describe_parameters_descriptions (fn_doc example_op) (fn_signature example_op) _
            {| pd_name := "query"; pd_description := Some "The text to look for.";
               pd_optional := false; pd_default := VNone; pd_type := "unknown" |}
            eq_refl _) [] _ [] eq_refl eq_refl _).
  - constructor.
  - apply not_elem_of_nil.
Defined.

(** ** The class of an operation *)

Lemma split_head_dotless s : dotless (split_head s) = true.
Proof.
  induction s as [|c s IH]; simpl; [done|].
  destruct (Ascii.eqb c ".") eqn:Hc; simpl; [done|]. by rewrite Hc.
Qed.

(** X6: the class under which an operation is registered is the part
    of its qualified name before the first dot: for a method of a
    nested class that is the outermost class, and a name without a dot
    is taken whole. *)
Theorem split_head_first_component cls rest :
  dotless cls = true →
  split_head (cls ++ "." ++ rest) = cls ∧ split_head cls = cls.
Proof.
  induction cls as [|c cls IH]; simpl; [done|].
  intros [Hc Hcls]%andb_true_iff. apply negb_true_iff in Hc. rewrite Hc.
  destruct (IH Hcls) as [-> ->]. done.
Qed.

Lemma split_head_first_component_witness :
  split_head ("Outer" ++ "." ++ "Inner.op") = "Outer" ∧ split_head "Outer" = "Outer".
Proof. exact (split_head_first_component "Outer" "Inner.op" eq_refl). Defined.

(** ** The registry *)

Lemma tool_lookup_insert_ne (tools : Registry) tc d c f :
  c ≠ tc → Toolkit.tool c f (<[tc := d]> tools) = Toolkit.tool c f tools.
Proof. intros Hne. unfold Toolkit.tool. by rewrite lookup_insert_ne. Qed.

(** X8: once an operation is registered it is what the lookup of its
    class and name returns; the record of the class keeps its other
    fields, and the lookup of every other operation, of this class or
    of another, is as it was. *)
Theorem register_operation_lookup (n tc : string) kwargs (tools tools' : Registry) :
  Toolkit.register n (Some tc) kwargs tools = Ok tools' →
  Toolkit.tool tc (Some n) tools' = Ok (inr kwargs) ∧
  (∃ d d', Toolkit.tool tc None tools = Ok (inl d) ∧
           Toolkit.tool tc None tools' = Ok (inl d') ∧
           tc_id d' = tc_id d ∧ tc_title d' = tc_title d ∧
           tc_description d' = tc_description d ∧ tc_icon d' = tc_icon d ∧
           tc_category d' = tc_category d ∧ tc_schema d' = tc_schema d) ∧
  (∀ c f, (c, f) ≠ (tc, n) →
          Toolkit.tool c (Some f) tools' = Toolkit.tool c (Some f) tools) ∧
  (∀ c, c ≠ tc → Toolkit.tool c None tools' = Toolkit.tool c None tools).
Proof.
  simpl. destruct (tools !! tc) as [d|] eqn:Hd; [|done].
  case_bool_decide as Hdup; [done|]. intros [= <-].
  split; [|split; [|split]].
  - unfold Toolkit.tool. rewrite lookup_insert_eq. simpl. by rewrite lookup_insert_eq.
  - exists d, (add_function n kwargs d). unfold Toolkit.tool.
    rewrite Hd, lookup_insert_eq. done.
  - intros c f Hne. destruct (decide (c = tc)) as [->|Hc].
    + unfold Toolkit.tool. rewrite lookup_insert_eq, Hd. simpl.
      rewrite lookup_insert_ne; [done|]. congruence.
    + by apply tool_lookup_insert_ne.
  - intros c Hc. by apply tool_lookup_insert_ne.
Qed.

Lemma register_operation_lookup_witness :
  Toolkit.tool "C" (Some "op") registry_C_op
    = Ok (inr (operation_record None None None example_op)) ∧
  (∃ d d', Toolkit.tool "C" None registry_C = Ok (inl d) ∧
           Toolkit.tool "C" None registry_C_op = Ok (inl d') ∧
           tc_id d' = tc_id d ∧ tc_title d' = tc_title d ∧
           tc_description d' = tc_description d ∧ tc_icon d' = tc_icon d ∧
           tc_category d' = tc_category d ∧ tc_schema d' = tc_schema d) ∧
  (∀ c f, (c, f) ≠ ("C", "op") →
          Toolkit.tool c (Some f) registry_C_op = Toolkit.tool c (Some f) registry_C) ∧
  (∀ c, c ≠ "C" → Toolkit.tool c None registry_C_op = Toolkit.tool c None registry_C).
Proof.
  apply (register_operation_lookup "op" "C" (operation_record None None None example_op)
           registry_C registry_C_op).
  simpl. unfold registry_C at 1. rewrite lookup_insert_eq. simpl.
  rewrite bool_decide_eq_false_2; [done|]. rewrite lookup_empty. by intros [? ?].
Defined.

(** ** The decorator of a class *)

(** X9: [tool] never raises and returns the class it is given; the
    class is then found under its name with no operation at all, even
    when it was registered with operations before, and with the given
    description, or its docstring when none or an empty one is given;
    the other classes are untouched. *)
Theorem tool_registers_class schema title description icon category cls (tools : Registry) :
  ∃ tools' r,
    tool schema title description icon category cls tools = Ok (cls, tools') ∧
    Toolkit.tool (cls_name cls) None tools' = Ok (inl r) ∧
    tc_id r = cls_name cls ∧ tc_title r = title ∧ tc_icon r = icon ∧
    tc_category r = category ∧ tc_schema r = default VNone schema ∧
    (description = None ∨ description = Some "" → tc_description r = cls_doc cls) ∧
    (∀ s, description = Some s → s ≠ "" → tc_description r = Some s) ∧
    (∀ f, Toolkit.tool (cls_name cls) (Some f) tools' = Raise (KeyError f)) ∧
    (∀ c f, c ≠ cls_name cls → Toolkit.tool c f tools' = Toolkit.tool c f tools).
Proof.
  eexists _, _. split; [reflexivity|]. split.
  { unfold Toolkit.tool. by rewrite lookup_insert_eq. }
  simpl. repeat split.
  - by intros [-> | ->].
  - intros s -> Hs. simpl. apply String.eqb_neq in Hs. by rewrite Hs.
  - intros f. unfold Toolkit.tool. rewrite lookup_insert_eq. simpl. by rewrite lookup_empty.
  - intros c f Hc. by apply tool_lookup_insert_ne.
Qed.

(** ** Decorations after the class *)

Section decorations.
Context {W : Type}.
Implicit Types (dec : Decoration W) (decs : list (Decoration W)) (tools : Registry).

Lemma tool_lookup_functions tools tc d f :
  tools !! tc = Some d →
  Toolkit.tool tc (Some f) tools
  = match tc_functions d !! f with Some r => Ok (inr r) | None => Raise (KeyError f) end.
Proof. intros Hd. unfold Toolkit.tool. by rewrite Hd. Qed.

(** X10: when the class is registered first, decorating any number of
    its functions of distinct new names succeeds, and afterwards each
    of them is found under the class with the record of its own
    decoration; operations of other names and other classes are as
    they were. *)
Theorem decorate_all_registers decs tc tools d :
  tools !! tc = Some d →
  Forall (acceptable tc d) decs →
  NoDup (dec_name <$> decs) →
  ∃ tools',
    decorate_all decs tools = Ok tools' ∧
    (∀ dec, dec ∈ decs →
       Toolkit.tool tc (Some (dec_name dec)) tools'
       = Ok (inr (operation_record (dec_schema dec) (dec_title dec) (dec_desc dec)
                    (dec_func dec)))) ∧
    (∀ f, f ∉ dec_name <$> decs →
       Toolkit.tool tc (Some f) tools' = Toolkit.tool tc (Some f) tools) ∧
    (∀ c f, c ≠ tc → Toolkit.tool c f tools' = Toolkit.tool c f tools).
Proof.
  intros Hd Hacc. revert tools d Hd Hacc.
  induction decs as [|dec decs IH]; intros tools d Hd Hacc Hnodup.
  - exists tools. split; [done|]. split; [|done]. intros dec Hdec. by apply elem_of_nil in Hdec.
  - apply Forall_cons in Hacc as [(Htc & Hnam & Hnew) Hacc].
    rewrite fmap_cons in Hnodup. apply NoDup_cons in Hnodup as [Hfresh Hnodup].
    destruct (describe_parameters_total (fn_doc (dec_func dec)) _ Hnam) as [args Hargs].
    rewrite <- Htc in Hd.
    pose proof (tool_func_registered (dec_schema dec) (dec_title dec) (dec_desc dec)
                  (dec_func dec) tools args d Hargs Hd Hnew) as Hstep.
    rewrite Htc in Hd, Hstep.
    set (r := operation_record (dec_schema dec) (dec_title dec) (dec_desc dec) (dec_func dec))
      in *.
    set (d1 := add_function (fn_name (dec_func dec)) r d) in *.
    set (tools1 := <[tc := d1]> tools) in *.
    assert (Hd1 : tools1 !! tc = Some d1) by apply lookup_insert_eq.
    destruct (IH tools1 d1 Hd1) as (tools' & Hrun & Hfound & Hother & Hframe); [|done|].
    { apply Forall_forall. intros dec' Hdec'.
      pose proof (proj1 (Forall_forall _ _) Hacc dec' Hdec') as (Htc' & Hnam' & Hnew').
      split; [done|]. split; [done|]. unfold d1. simpl.
      rewrite lookup_insert_ne; [done|].
      intros Heq. apply Hfresh. apply list_elem_of_fmap. by exists dec'. }
    exists tools'. split; [|split; [|split]].
    + simpl. rewrite Hstep. simpl. exact Hrun.
    + intros dec0 [->|Hin]%elem_of_cons; [|by apply Hfound].
      rewrite (Hother _ Hfresh). rewrite (tool_lookup_functions _ _ _ _ Hd1).
      unfold d1. simpl. unfold dec_name. by rewrite lookup_insert_eq.
    + intros f [Hne Hf]%not_elem_of_cons. rewrite (Hother f Hf).
      rewrite (tool_lookup_functions _ _ _ _ Hd1), (tool_lookup_functions _ _ _ _ Hd).
      unfold d1. simpl. by rewrite lookup_insert_ne.
    + intros c f Hc. rewrite (Hframe c f Hc). by apply tool_lookup_insert_ne.
Qed.
End decorations.

Lemma decorate_all_registers_witness :
  ∃ tools',
    decorate_all example_decorations registry_C = Ok tools' ∧
    (∀ dec, dec ∈ example_decorations →
       Toolkit.tool "C" (Some (dec_name dec)) tools'
       = Ok (inr (operation_record (dec_schema dec) (dec_title dec) (dec_desc dec)
                    (dec_func dec)))) ∧
    (∀ f, f ∉ dec_name <$> example_decorations →
       Toolkit.tool "C" (Some f) tools' = Toolkit.tool "C" (Some f) registry_C) ∧
    (∀ c f, c ≠ "C" → Toolkit.tool c f tools' = Toolkit.tool c f registry_C).
Proof.
  apply (decorate_all_registers example_decorations "C" registry_C container_C).
  - apply lookup_insert_eq.
  - repeat constructor.
  - apply (bool_decide_unpack _). vm_compute. exact I.
Defined.

(** ** Calls of a wrapped operation *)

Lemma dict_set_set {V} (d : list (string * V)) k v x :
  dict_set k v (dict_set k x d) = dict_set k v d.
Proof.
  induction d as [|[k' v'] d IH]; simpl.
  - by rewrite decide_True.
  - destruct (decide (k = k')) as [->|Hne]; simpl.
    + by rewrite decide_True.
    + rewrite decide_False by done. by rewrite IH.
Qed.


(** Keyword arguments never replace a value already bound. *)
Lemma bind_keywords_keeps qualname params kwargs bound bound' k v :
  bind_keywords qualname params kwargs bound = Ok bound' →
  dict_get k bound = Some v → dict_get k bound' = Some v.
Proof.
  revert bound. induction kwargs as [|[k0 v0] kwargs IH]; intros bound; simpl.
  - by intros [= <-].
  - case_bool_decide; [|done]. case_bool_decide as Hset; [done|].
    intros Hrest Hk. apply (IH _ Hrest).
    rewrite dict_get_set_ne; [done|]. intros ->. apply Hset. eauto.
Qed.

(** Every keyword argument of a call that binds is a local of the call. *)
Lemma bind_keywords_binds qualname params kwargs bound bound' k v :
  bind_keywords qualname params kwargs bound = Ok bound' →
  dict_get k kwargs = Some v →
  dict_get k bound' = Some v ∧ k ∈ p_name <$> params.
Proof.
  revert bound. induction kwargs as [|[k0 v0] kwargs IH]; intros bound; simpl; [done|].
  case_bool_decide as Hin; [|done]. case_bool_decide as Hset; [done|].
  intros Hrest. destruct (decide (k = k0)) as [->|Hne].
  - intros [= ->]. split; [|done].
    apply (bind_keywords_keeps _ _ _ _ _ _ _ Hrest), dict_get_set_eq.
  - intros Hk. by eapply IH.
Qed.

(** A keyword that names no parameter ends the binding in a [TypeError]. *)
Lemma bind_keywords_unexpected qualname params kwargs bound k v :
  dict_get k kwargs = Some v → k ∉ p_name <$> params →
  ∃ msg, bind_keywords qualname params kwargs bound = Raise (TypeError msg).
Proof.
  intros Hk Hnot. revert bound Hk.
  induction kwargs as [|[k0 v0] kwargs IH]; intros bound; simpl; [done|].
  case_bool_decide as Hin; [|eauto]. case_bool_decide as Hset; [eauto|].
  destruct (decide (k = k0)) as [->|Hne]; [done|]. apply IH.
Qed.

Lemma fill_defaults_bound params bound k v :
  k ∈ p_name <$> params → dict_get k bound = Some v →
  dict_get k (fill_defaults params bound) = Some v.
Proof.
  intros Hin Hk. unfold fill_defaults.
  induction params as [|p params IH]; [by apply elem_of_nil in Hin|].
  simpl. destruct (decide (k = p_name p)) as [->|Hne].
  - rewrite Hk. simpl. by rewrite decide_True.
  - rewrite fmap_cons in Hin. apply elem_of_cons in Hin as [?|Hin]; [done|].
    destruct (dict_get (p_name p) bound) as [x|]; [|destruct (p_default p) as [x|]]; simpl;
      try rewrite decide_False by done; by apply IH.
Qed.

Lemma bind_arguments_keyword qualname params args kwargs locals k v :
  bind_arguments qualname params args kwargs = Ok locals →
  dict_get k kwargs = Some v → dict_get k locals = Some v.
Proof.
  unfold bind_arguments.
  destruct (bind_keywords _ _ _ _) as [bound|e] eqn:Hbound; simpl; [|done].
  case_bool_decide; [done|].
  destruct (missing_arguments params bound); [|done].
  intros [= <-] Hk.
  destruct (bind_keywords_binds _ _ _ _ _ _ _ Hbound Hk) as [Hget Hin].
  by apply fill_defaults_bound.
Qed.

Section wrapped_calls.
Context {W : Type}.
Implicit Types (func : @PyFunction W) (w : W).

(** X11: when a call binds, the body of the operation finds the
    injected configuration in [_config]; when it does not, the
    [TypeError] of the binding is what the caller gets. *)
Theorem body_receives_injected_config n qualname doc params body
    self args kwargs config w :
  dict_get "self" kwargs = None →
  injected_config self = Ok config →
  match bind_arguments qualname params (self :: args) (dict_set "_config" config kwargs) with
  | Ok locals =>
      dict_get "_config" locals = Some config ∧
      fn_call (wrapper (def_function n qualname doc params body)) (self :: args) kwargs w
      = body locals w
  | Raise e =>
      fn_call (wrapper (def_function n qualname doc params body)) (self :: args) kwargs w
      = (Raise e, w)
  end.
Proof.
  intros Hself Hconfig.
  rewrite (wrapper_call_injects _ self args kwargs config w Hself Hconfig).
  unfold def_function at 1 2, fn_call at 1 2.
  destruct (bind_arguments _ _ _ _) as [locals|e] eqn:Hbind; [|done].
  split; [|done].
  apply (bind_arguments_keyword _ _ _ _ _ _ _ Hbind), dict_get_set_eq.
Qed.


(** X13: an operation declared with plain parameters, none of them
    named [_config], cannot be called as a method once it is wrapped:
    whatever the arguments, the call ends in a [TypeError] of the
    binding before the body runs, and without keywords of the caller it
    is the injected keyword that is unexpected. *)
Theorem undeclared_config_refused n qualname doc params body self args kwargs config w :
  dict_get "self" kwargs = None →
  injected_config self = Ok config →
  "_config" ∉ p_name <$> params →
  (∃ msg, fn_call (wrapper (def_function n qualname doc params body)) (self :: args) kwargs w
          = (Raise (TypeError msg), w)) ∧
  (kwargs = [] →
   fn_call (wrapper (def_function n qualname doc params body)) (self :: args) kwargs w
   = (Raise (TypeError (qualname ++ "() got an unexpected keyword argument '_config'")), w)).
Proof.
  intros Hself Hconfig Hnot.
  rewrite (wrapper_call_injects _ self args kwargs config w Hself Hconfig).
  unfold def_function, fn_call, bind_arguments. split.
  - destruct (bind_keywords_unexpected qualname params
                (dict_set "_config" config kwargs) (bind_positional params (self :: args))
                "_config" config (dict_get_set_eq _ _ _) Hnot) as [msg ->].
    by exists msg.
  - intros ->. unfold dict_set, bind_keywords.
    by rewrite (bool_decide_eq_false_2 ("_config" ∈ p_name <$> params)).
Qed.

(** X14: a [_config] passed by the caller as a keyword is replaced by
    the injected one: the call does not depend on it. *)
Theorem caller_config_replaced func self args kwargs x y w :
  dict_get "self" kwargs = None →
  fn_call (wrapper func) (self :: args) (dict_set "_config" x kwargs) w
  = fn_call (wrapper func) (self :: args) (dict_set "_config" y kwargs) w.
Proof.
  intros Hself.
  assert (Hs : ∀ v, dict_get "self" (dict_set "_config" v kwargs) = None).
  { intros v. by rewrite dict_get_set_ne. }
  destruct (injected_config self) as [config|e] eqn:Hconfig.
  - rewrite !(wrapper_call_injects _ self args _ config w (Hs _) Hconfig).
    by rewrite !dict_set_set.
  - by rewrite !(wrapper_call_config_raises _ self args _ e w (Hs _) Hconfig).
Qed.
End wrapped_calls.

Lemma body_receives_injected_config_witness :
  dict_get "_config"
    [("self", Toolkit.init "C" VNone); ("query", VStr "hello"); ("_config", VDict [])]
    = Some (VDict []) ∧
  fn_call (wrapper example_op) [Toolkit.init "C" VNone; VStr "hello"] [] ()
  = (Ok (VDict []), ()).
Proof.
  exact (body_receives_injected_config "op" "C.op" (fn_doc example_op)
           (fn_signature example_op) (λ locals, mret (local "_config" locals))
           (Toolkit.init "C" VNone)
           [VStr "hello"] [] (VDict []) () eq_refl eq_refl).
Defined.


Lemma undeclared_config_refused_witness :
  fn_call (wrapper op_without_config) [Toolkit.init "C" VNone; VStr "hello"] [] ()
  = (Raise (TypeError ("C.plain" ++ "() got an unexpected keyword argument '_config'")), ()).
Proof.
  refine (proj2 (undeclared_config_refused "plain" "C.plain" (fn_doc op_without_config)
                   (fn_signature op_without_config) (λ locals, mret (local "query" locals))
                   (Toolkit.init "C" VNone) [VStr "hello"] [] (VDict []) () eq_refl eq_refl _)
            eq_refl).
  apply (bool_decide_unpack _). vm_compute. exact I.
Defined.

Lemma caller_config_replaced_witness :
  fn_call (wrapper example_op) [Toolkit.init "C" VNone; VStr "hello"]
    (dict_set "_config" (VDict [("num_results", VInt 5)]) []) ()
  = fn_call (wrapper example_op) [Toolkit.init "C" VNone; VStr "hello"]
      (dict_set "_config" VNone []) ().
Proof.
  exact (caller_config_replaced example_op (Toolkit.init "C" VNone) [VStr "hello"] []
           (VDict [("num_results", VInt 5)]) VNone () eq_refl).
Defined.

(** ** Instances and the configuration the wrapper reads *)

Lemma injected_config_not_well_configured self e :
  injected_config self = Raise e → ¬ well_configured self ∧ ∃ msg, e = AttributeError msg.
Proof.
  intros Hraise. split.
  - intros [config Hok]%injected_config_well_configured. congruence.
  - unfold injected_config in Hraise.
    destruct self as [| | | | |d|cls conf]; simpl in Hraise; try (injection Hraise as <-; eauto).
    destruct conf as [| | | | |conf|]; simpl in Hraise; try (injection Hraise as <-; eauto).
    destruct (default _ (dict_get "functions" conf)) as [| | | | |fns|]; simpl in Hraise;
      try (injection Hraise as <-; eauto).
    discriminate Hraise.
Qed.

Section instances.
Context {W : Type}.
Implicit Types (func : @PyFunction W) (w : W).

(** X15: on an instance whose configuration is not a mapping, or holds
    under [functions] something that is not a mapping, every call of a
    wrapped operation raises an [AttributeError] and the operation is
    not called. *)
Theorem ill_configured_call_raises func self args kwargs w :
  dict_get "self" kwargs = None →
  ¬ well_configured self →
  ∃ msg, injected_config self = Raise (AttributeError msg) ∧
         fn_call (wrapper func) (self :: args) kwargs w = (Raise (AttributeError msg), w).
Proof.
  intros Hself Hill.
  destruct (injected_config self) as [config|e] eqn:Hconfig.
  - exfalso. apply Hill. unfold injected_config in Hconfig.
    destruct self as [| | | | |d|cls conf]; try discriminate Hconfig.
    destruct conf as [| | | | |conf|]; try discriminate Hconfig.
    exists cls, conf. split; [done|]. intros v Hv. simpl in Hconfig. rewrite Hv in Hconfig.
    destruct v; try discriminate Hconfig. eauto.
  - destruct (injected_config_not_well_configured self e Hconfig) as [_ [msg ->]].
    exists msg. split; [done|]. by apply wrapper_call_config_raises.
Qed.

(** X16: an instance built from a falsy configuration ([None], [False],
    zero, an empty string, list or mapping) always injects an empty
    mapping. *)
Theorem unconfigured_instance_injects_empty func cls configuration args kwargs w :
  truthy configuration = false →
  dict_get "self" kwargs = None →
  fn_call (wrapper func) (Toolkit.init cls configuration :: args) kwargs w
  = fn_call func (Toolkit.init cls configuration :: args)
      (dict_set "_config" (VDict []) kwargs) w.
Proof.
  intros Hfalsy Hself. apply wrapper_call_injects; [done|].
  unfold Toolkit.init. by rewrite Hfalsy.
Qed.

(** X17: when the configuration of the instance is a mapping without
    [functions], the injected value is the empty string and not a
    mapping. *)
Theorem missing_functions_injects_string func cls conf args kwargs w :
  dict_get "self" kwargs = None →
  dict_get "functions" conf = None →
  fn_call (wrapper func) (VObject cls (VDict conf) :: args) kwargs w
  = fn_call func (VObject cls (VDict conf) :: args) (dict_set "_config" (VStr "") kwargs) w.
Proof.
  intros Hself Hnone. apply wrapper_call_injects; [done|].
  by apply injected_config_no_functions.
Qed.
End instances.

Lemma ill_configured_call_raises_witness :
  ∃ msg, injected_config instance_with_list_functions = Raise (AttributeError msg) ∧
         fn_call (wrapper example_op) [instance_with_list_functions; VStr "hello"] [] ()
         = (Raise (AttributeError msg), ()).
Proof.
  apply (ill_configured_call_raises example_op instance_with_list_functions
           [VStr "hello"] [] () eq_refl).
  intros (cls & conf & [= <- <-] & Hfns).
  destruct (Hfns _ eq_refl) as [fns Hf]. discriminate Hf.
Defined.

Lemma unconfigured_instance_injects_empty_witness :
  fn_call (wrapper example_op) [Toolkit.init "C" (VDict []); VStr "hello"] [] ()
  = fn_call example_op [Toolkit.init "C" (VDict []); VStr "hello"]
      (dict_set "_config" (VDict []) []) ().
Proof.
  exact (unconfigured_instance_injects_empty example_op "C" (VDict []) [VStr "hello"] [] ()
           eq_refl eq_refl).
Defined.

Lemma missing_functions_injects_string_witness :
  fn_call (wrapper example_op) [instance_without_functions; VStr "hello"] [] ()
  = fn_call example_op [instance_without_functions; VStr "hello"]
      (dict_set "_config" (VStr "") []) ().
Proof.
  exact (missing_functions_injects_string example_op "C" [("api_key", VStr "secret")]
           [VStr "hello"] [] () eq_refl eq_refl).
Defined.

(** ** The search operations *)

Lemma py_get_raise v k dflt e : py_get v k dflt = Raise e → is_ImportError e = false.
Proof. destruct v; simpl; intros [= <-]; done. Qed.

Lemma api_key_raise self e : api_key self = Raise e → is_ImportError e = false.
Proof.
  unfold api_key. destruct self; simpl; try (by intros [= <-]).
  apply py_get_raise.
Qed.

Section search_facts.
Context {W : Type}.
Variable import_serpapi : string → @Eff W unit.
Variable serpapi_get_dict : string → PyVal → @Eff W PyVal.
Variable subprocess_run : list string → @Eff W unit.
Variable logger_exception : PyExc → W → W.
Variable google_doc youtube_doc : list DocParam.
Variable SerpApiConfig SearchConfig : PyVal.
Variable ToolCategory_Search : option string.

(** A method call with the query alone runs the body on the receiver,
    the query and the injected configuration. *)
Lemma search_method_call n qualname doc cls key method self query config (w : W) :
  injected_config self = Ok config →
  fn_call (wrapper (def_function n qualname doc search_params
             (search import_serpapi serpapi_get_dict subprocess_run logger_exception
                cls key method))) [self; query] [] w
  = search import_serpapi serpapi_get_dict subprocess_run logger_exception cls key method
      [("self", self); ("query", query); ("_config", config)] w.
Proof.
  intros Hconfig.
  rewrite (wrapper_call_injects _ self [query] [] config w eq_refl Hconfig).
  unfold def_function at 1, fn_call at 1, dict_set.
  unfold mbind at 1, Eff_bind at 1, lift at 1. by rewrite bind_search_call.
Qed.

(** The steps of the body when the import succeeds and the
    configuration and the key can be read. *)
Lemma search_body_backend cls key method c conf cfg query (w w1 : W) :
  import_serpapi cls w = (Ok (), w1) →
  search import_serpapi serpapi_get_dict subprocess_run logger_exception cls key method
    [("self", VObject c (VDict conf)); ("query", query); ("_config", VDict cfg)] w
  = match serpapi_get_dict cls
            (VDict [("q", query); ("num", default VNone (dict_get "num_results" cfg));
                    ("api_key", default (VStr "") (dict_get "api_key" conf))]) w1 with
    | (Ok results, w2) =>
        match py_get results key (VList []) with
        | Ok v => (Ok v, w2)
        | Raise e => (Ok (VDict [("error", VStr (exc_str e))]), logger_exception e w2)
        end
    | (Raise e, w2) =>
        if is_ImportError e then
          (_ ← install_package subprocess_run "google-search-results";
           _ ← fn_call method [VObject c (VDict conf); query; VDict cfg] [];
           mret VNone) w2
        else (Ok (VDict [("error", VStr (exc_str e))]), logger_exception e w2)
    end.
Proof.
  intros Himport. unfold search.
  change (local "self" [("self", ?s); ("query", ?q); ("_config", ?x)]) with s.
  change (local "query" [("self", ?s); ("query", ?q); ("_config", ?x)]) with q.
  change (local "_config" [("self", ?s); ("query", ?q); ("_config", ?x)]) with x.
  rewrite (eff_bind_ok _ _ _ _ _ Himport).
  cbn [py_get]. rewrite eff_bind_lift.
  unfold api_key, get_configuration. cbn [mbind Res_bind py_get]. rewrite eff_bind_lift.
  destruct (serpapi_get_dict cls _ w1) as [[results|e] w2] eqn:Hsearch.
  - rewrite (eff_bind_ok _ _ _ _ _ Hsearch). unfold lift.
    destruct (py_get results key (VList [])) as [v|e] eqn:Hget; [done|].
    by rewrite (py_get_raise _ _ _ _ Hget).
  - by rewrite (eff_bind_raise _ _ _ _ _ Hsearch).
Qed.
(** X18: when the import succeeds and the backend returns a mapping,
    [search_google] returns what the mapping holds under
    [organic_results] and [search_youtube] what it holds under [videos],
    an empty list when the key is missing; the backend is asked with the
    query, the configured number of results ([None] when not
    configured) and the key of the instance (an empty string when it
    has none). *)
Theorem search_returns_results depth c conf cfg query :
  injected_config (VObject c (VDict conf)) = Ok (VDict cfg) →
  (∀ results (w w1 w2 : W),
     import_serpapi "GoogleSearch" w = (Ok (), w1) →
     serpapi_get_dict "GoogleSearch"
       (VDict [("q", query); ("num", default VNone (dict_get "num_results" cfg));
               ("api_key", default (VStr "") (dict_get "api_key" conf))]) w1
       = (Ok (VDict results), w2) →
     fn_call (search_google import_serpapi serpapi_get_dict subprocess_run logger_exception
                google_doc (S depth)) [VObject c (VDict conf); query] [] w
     = (Ok (default (VList []) (dict_get "organic_results" results)), w2)) ∧
  (∀ results (w w1 w2 : W),
     import_serpapi "YoutubeSearch" w = (Ok (), w1) →
     serpapi_get_dict "YoutubeSearch"
       (VDict [("q", query); ("num", default VNone (dict_get "num_results" cfg));
               ("api_key", default (VStr "") (dict_get "api_key" conf))]) w1
       = (Ok (VDict results), w2) →
     fn_call (search_youtube import_serpapi serpapi_get_dict subprocess_run logger_exception
                youtube_doc (S depth)) [VObject c (VDict conf); query] [] w
     = (Ok (default (VList []) (dict_get "videos" results)), w2)).
Proof.
  intros Hconfig. split; intros results w w1 w2 Himport Hsearch.
  - simpl search_google. unfold search_google_def.
    rewrite (search_method_call _ _ _ _ _ _ _ _ _ _ Hconfig).
    rewrite (search_body_backend _ _ _ _ _ _ _ _ _ Himport). by rewrite Hsearch.
  - simpl search_youtube. unfold search_youtube_def.
    rewrite (search_method_call _ _ _ _ _ _ _ _ _ _ Hconfig).
    rewrite (search_body_backend _ _ _ _ _ _ _ _ _ Himport). by rewrite Hsearch.
Qed.

(** X19: when the backend raises anything but an [ImportError], both
    operations log the exception and return the mapping that holds its
    message under [error]. *)
Theorem search_reports_backend_failure depth c conf cfg query e :
  injected_config (VObject c (VDict conf)) = Ok (VDict cfg) →
  is_ImportError e = false →
  (∀ (w w1 w2 : W),
     import_serpapi "GoogleSearch" w = (Ok (), w1) →
     serpapi_get_dict "GoogleSearch"
       (VDict [("q", query); ("num", default VNone (dict_get "num_results" cfg));
               ("api_key", default (VStr "") (dict_get "api_key" conf))]) w1
       = (Raise e, w2) →
     fn_call (search_google import_serpapi serpapi_get_dict subprocess_run logger_exception
                google_doc (S depth)) [VObject c (VDict conf); query] [] w
     = (Ok (VDict [("error", VStr (exc_str e))]), logger_exception e w2)) ∧
  (∀ (w w1 w2 : W),
     import_serpapi "YoutubeSearch" w = (Ok (), w1) →
     serpapi_get_dict "YoutubeSearch"
       (VDict [("q", query); ("num", default VNone (dict_get "num_results" cfg));
               ("api_key", default (VStr "") (dict_get "api_key" conf))]) w1
       = (Raise e, w2) →
     fn_call (search_youtube import_serpapi serpapi_get_dict subprocess_run logger_exception
                youtube_doc (S depth)) [VObject c (VDict conf); query] [] w
     = (Ok (VDict [("error", VStr (exc_str e))]), logger_exception e w2)).
Proof.
  intros Hconfig Hnot. split; intros w w1 w2 Himport Hsearch.
  - simpl search_google. unfold search_google_def.
    rewrite (search_method_call _ _ _ _ _ _ _ _ _ _ Hconfig).
    rewrite (search_body_backend _ _ _ _ _ _ _ _ _ Himport).
    by rewrite Hsearch, Hnot.
  - simpl search_youtube. unfold search_youtube_def.
    rewrite (search_method_call _ _ _ _ _ _ _ _ _ _ Hconfig).
    rewrite (search_body_backend _ _ _ _ _ _ _ _ _ Himport).
    by rewrite Hsearch, Hnot.
Qed.

(** The body on an injected configuration that is the empty string. *)
Lemma search_body_string_config cls key method self query (w w1 : W) :
  import_serpapi cls w = (Ok (), w1) →
  search import_serpapi serpapi_get_dict subprocess_run logger_exception cls key method
    [("self", self); ("query", query); ("_config", VStr "")] w
  = (Ok (VDict [("error", VStr "'str' object has no attribute 'get'")]),
     logger_exception (AttributeError "'str' object has no attribute 'get'") w1).
Proof.
  intros Himport. unfold search.
  change (local "_config" [("self", ?s); ("query", ?q); ("_config", ?x)]) with x.
  by rewrite (eff_bind_ok _ _ _ _ _ Himport).
Qed.

(** X20: on an instance whose configuration is a mapping without
    [functions], as [SerpApiTool({"api_key": key})] is, a search whose
    import succeeds never reaches the backend: reading the number of
    results from the injected empty string fails, and the operation
    returns that failure as its error result. *)
Theorem search_without_functions depth c conf query :
  dict_get "functions" conf = None →
  (∀ (w w1 : W),
     import_serpapi "GoogleSearch" w = (Ok (), w1) →
     fn_call (search_google import_serpapi serpapi_get_dict subprocess_run logger_exception
                google_doc (S depth)) [VObject c (VDict conf); query] [] w
     = (Ok (VDict [("error", VStr "'str' object has no attribute 'get'")]),
        logger_exception (AttributeError "'str' object has no attribute 'get'") w1)) ∧
  (∀ (w w1 : W),
     import_serpapi "YoutubeSearch" w = (Ok (), w1) →
     fn_call (search_youtube import_serpapi serpapi_get_dict subprocess_run logger_exception
                youtube_doc (S depth)) [VObject c (VDict conf); query] [] w
     = (Ok (VDict [("error", VStr "'str' object has no attribute 'get'")]),
        logger_exception (AttributeError "'str' object has no attribute 'get'") w1)).
Proof.
  intros Hnone.
  pose proof (injected_config_no_functions c conf Hnone) as Hconfig.
  split; intros w w1 Himport.
  - simpl search_google. unfold search_google_def.
    rewrite (search_method_call _ _ _ _ _ _ _ _ _ _ Hconfig).
    by apply search_body_string_config.
  - simpl search_youtube. unfold search_youtube_def.
    rewrite (search_method_call _ _ _ _ _ _ _ _ _ _ Hconfig).
    by apply search_body_string_config.
Qed.
Lemma eff_bind_lift_raise {A B} (e : PyExc) (f : A → @Eff W B) (w : W) :
  (lift (Raise e) ≫= f) w = (Raise e, w).
Proof. reflexivity. Qed.

(** Without an [ImportError] from the import or from the backend, the
    body returns whatever its locals are. *)
Lemma search_body_returns cls key method locals (w : W) :
  (∀ w e w', import_serpapi cls w = (Raise e, w') → is_ImportError e = false) →
  (∀ p w e w', serpapi_get_dict cls p w = (Raise e, w') → is_ImportError e = false) →
  ∃ v w', search import_serpapi serpapi_get_dict subprocess_run logger_exception
            cls key method locals w = (Ok v, w').
Proof.
  intros Himp Hget. unfold search. cbv zeta.
  destruct (import_serpapi cls w) as [[[]|e] w1] eqn:Himport.
  2:{ rewrite (eff_bind_raise _ _ _ _ _ Himport), (Himp _ _ _ Himport). eauto. }
  rewrite (eff_bind_ok _ _ _ _ _ Himport).
  destruct (py_get (local "_config" locals) "num_results" VNone) as [num|e] eqn:Hnum.
  2:{ rewrite eff_bind_lift_raise, (py_get_raise _ _ _ _ Hnum). eauto. }
  rewrite eff_bind_lift.
  destruct (api_key (local "self" locals)) as [k|e] eqn:Hkey.
  2:{ rewrite eff_bind_lift_raise, (api_key_raise _ _ Hkey). eauto. }
  rewrite eff_bind_lift.
  match goal with
  | |- context [serpapi_get_dict cls ?p] =>
      destruct (serpapi_get_dict cls p w1) as [[results|e] w2] eqn:Hsearch
  end.
  2:{ rewrite (eff_bind_raise _ _ _ _ _ Hsearch), (Hget _ _ _ _ Hsearch). eauto. }
  rewrite (eff_bind_ok _ _ _ _ _ Hsearch). unfold lift.
  destruct (py_get results key (VList [])) as [v|e] eqn:Hres; [eauto|].
  rewrite (py_get_raise _ _ _ _ Hres). eauto.
Qed.

(** X21: as long as neither the import nor the backend raises an
    [ImportError], a call of [search_google] or [search_youtube] with a
    query on an instance whose configuration can be read returns: every
    other failure stays inside the operation. *)
Theorem search_returns_without_import_error depth self query config (w : W) :
  injected_config self = Ok config →
  (∀ cls w e w', import_serpapi cls w = (Raise e, w') → is_ImportError e = false) →
  (∀ cls p w e w', serpapi_get_dict cls p w = (Raise e, w') → is_ImportError e = false) →
  (∃ v w', fn_call (search_google import_serpapi serpapi_get_dict subprocess_run
                      logger_exception google_doc (S depth)) [self; query] [] w
           = (Ok v, w')) ∧
  (∃ v w', fn_call (search_youtube import_serpapi serpapi_get_dict subprocess_run
                      logger_exception youtube_doc (S depth)) [self; query] [] w
           = (Ok v, w')).
Proof.
  intros Hconfig Himp Hget. split.
  - simpl search_google. unfold search_google_def.
    rewrite (search_method_call _ _ _ _ _ _ _ _ _ _ Hconfig).
    apply search_body_returns; eauto.
  - simpl search_youtube. unfold search_youtube_def.
    rewrite (search_method_call _ _ _ _ _ _ _ _ _ _ Hconfig).
    apply search_body_returns; eauto.
Qed.

(** X22: whenever loading the plugin succeeds, which takes a registry
    that already holds [SerpApiTool], the class ends with no operation:
    the decorator of the class runs last and registers a record whose
    [functions] is empty over the one the two operations were added to. *)
Theorem load_serpapi_leaves_no_operation depth (tools tools' : Registry) :
  load_serpapi import_serpapi serpapi_get_dict subprocess_run logger_exception
    google_doc youtube_doc SerpApiConfig SearchConfig ToolCategory_Search depth tools
  = Ok tools' →
  is_Some (tools !! "SerpApiTool") ∧
  (∃ r, Toolkit.tool "SerpApiTool" None tools' = Ok (inl r) ∧ tc_functions r = ∅) ∧
  (∀ f, Toolkit.tool "SerpApiTool" (Some f) tools' = Raise (KeyError f)).
Proof.
  unfold load_serpapi.
  destruct (tool_func _ _ _ (search_google_def _ _ _ _ _ _) tools) as [[f1 t1]|e] eqn:H1;
    simpl; [|done].
  destruct (tool_func _ _ _ (search_youtube_def _ _ _ _ _ _) t1) as [[f2 t2]|e] eqn:H2;
    simpl; [|done].
  intros [= <-].
  apply tool_func_inv in H1 as (_ & d & Hd & _ & _).
  split; [by eexists|]. unfold Toolkit.tool. rewrite lookup_insert_eq. simpl. split.
  - eauto.
  - intros f. by rewrite lookup_empty.
Qed.
End search_facts.

Lemma search_returns_results_witness :
  fn_call (search_google online_import offline_get_dict offline_subprocess_run offline_logger
             [] 1) [configured_tool; VStr "rocq"] [] true
  = (Ok (VList []), true).
Proof.
  exact (proj1 (search_returns_results online_import offline_get_dict offline_subprocess_run
                  offline_logger [] [] 0 "SerpApiTool"
                  [("api_key", VStr "secret");
                   ("functions", VDict [("config", VDict [("num_results", VInt 5)])])]
                  [("num_results", VInt 5)] (VStr "rocq") eq_refl)
           [("organic_results", VList []); ("videos", VList [])] true true true
           eq_refl eq_refl).
Defined.

Lemma search_reports_backend_failure_witness :
  fn_call (search_google online_import failing_get_dict offline_subprocess_run offline_logger
             [] 1) [configured_tool; VStr "rocq"] [] true
  = (Ok (VDict [("error", VStr "503 Service Unavailable")]), true).
Proof.
  exact (proj1 (search_reports_backend_failure online_import failing_get_dict
                  offline_subprocess_run offline_logger [] [] 0 "SerpApiTool"
                  [("api_key", VStr "secret");
                   ("functions", VDict [("config", VDict [("num_results", VInt 5)])])]
                  [("num_results", VInt 5)] (VStr "rocq")
                  (OtherException "HTTPError" "503 Service Unavailable") eq_refl eq_refl)
           true true true eq_refl eq_refl).
Defined.

Lemma search_without_functions_witness :
  fn_call (search_google online_import offline_get_dict offline_subprocess_run offline_logger
             [] 1) [serp_api_tool; VStr "who is PM of USA"] [] true
  = (Ok (VDict [("error", VStr "'str' object has no attribute 'get'")]), true).
Proof.
  exact (proj1 (search_without_functions online_import offline_get_dict offline_subprocess_run
                  offline_logger [] [] 0 "SerpApiTool" [("api_key", VStr "secret")]
                  (VStr "who is PM of USA") eq_refl)
           true true eq_refl).
Defined.

Lemma search_returns_without_import_error_witness :
  (∃ v w', fn_call (search_google online_import failing_get_dict offline_subprocess_run
                      offline_logger [] 1) [configured_tool; VStr "rocq"] [] true
           = (Ok v, w')) ∧
  (∃ v w', fn_call (search_youtube online_import failing_get_dict offline_subprocess_run
                      offline_logger [] 1) [configured_tool; VStr "rocq"] [] true
           = (Ok v, w')).
Proof.
  apply (search_returns_without_import_error online_import failing_get_dict
           offline_subprocess_run offline_logger [] [] 0 configured_tool (VStr "rocq")
           (VDict [("num_results", VInt 5)]) true eq_refl).
  - intros cls w e w' [= <- <-].
  - by intros cls p w e w' [= <- <-].
Defined.

Lemma load_serpapi_leaves_no_operation_witness :
  is_Some (registry_serpapi !! "SerpApiTool") ∧
  (∃ r, Toolkit.tool "SerpApiTool" None registry_serpapi = Ok (inl r) ∧ tc_functions r = ∅) ∧
  (∀ f, Toolkit.tool "SerpApiTool" (Some f) registry_serpapi = Raise (KeyError f)).
Proof.
  apply (load_serpapi_leaves_no_operation offline_import offline_get_dict
           offline_subprocess_run offline_logger [] [] VNone VNone None 0
           registry_serpapi registry_serpapi).
  vm_compute. reflexivity.
Defined.

(** ** The prototype with a pending table *)

Section prototype.
Import Prototype.
Context {W : Type}.
Implicit Types (m : MethodDecl W) (methods : list (MethodDecl W)) (st : State).

(** What the body of a class whose methods all belong to the class [c]
    does to the two tables. *)
Lemma decorate_methods_effect methods c st :
  Forall (λ m, split_head (fn_qualname (md_func m)) = c) methods →
  TOOL_REGISTRY (decorate_methods methods st) = TOOL_REGISTRY st ∧
  default [] (PENDING_FUNCTIONS (decorate_methods methods st) !! c)
    = (default [] (PENDING_FUNCTIONS st !! c) ++ (entry_of <$> methods))%list ∧
  (∀ c', c' ≠ c →
     PENDING_FUNCTIONS (decorate_methods methods st) !! c' = PENDING_FUNCTIONS st !! c').
Proof.
  intros Hall. revert st. induction Hall as [|m methods Hm _ IH]; intros st.
  - simpl. split; [done|]. split; [by rewrite app_nil_r | done].
  - cbn [decorate_methods].
    destruct (IH (register_tool_func (md_config_cls m) (md_title m) (md_func m)
                    (md_doc m) st).2) as (Hreg & Hpend & Hother).
    split; [|split].
    + by rewrite Hreg.
    + rewrite Hpend. simpl. rewrite Hm, lookup_insert_eq. simpl.
      by rewrite <- app_assoc.
    + intros c' Hc'. rewrite (Hother c' Hc'). simpl. rewrite Hm.
      by rewrite lookup_insert_ne.
Qed.

(** X23: a class declared with its methods decorated in its body ends
    in the registry with the entries of those methods, once each and in
    the order of the body, after whatever was pending for it; nothing
    stays pending for the class, and the other classes keep their
    records and their pending entries. *)
Theorem declare_class_attaches_methods cls methods st :
  Forall (λ m, split_head (fn_qualname (md_func m)) = pc_name cls) methods →
  (∃ r, TOOL_REGISTRY (declare_class cls methods st) !! pc_name cls = Some r ∧
        te_functions r
        = (default [] (PENDING_FUNCTIONS st !! pc_name cls) ++ (entry_of <$> methods))%list) ∧
  PENDING_FUNCTIONS (declare_class cls methods st) !! pc_name cls = None ∧
  (∀ c, c ≠ pc_name cls →
     TOOL_REGISTRY (declare_class cls methods st) !! c = TOOL_REGISTRY st !! c ∧
     PENDING_FUNCTIONS (declare_class cls methods st) !! c = PENDING_FUNCTIONS st !! c).
Proof.
  intros Hall.
  destruct (decorate_methods_effect methods (pc_name cls) st Hall) as (Hreg & Hpend & Hother).
  unfold declare_class, register_tool. simpl. split; [|split].
  - eexists. rewrite lookup_insert_eq. split; [done|]. simpl. exact Hpend.
  - apply lookup_delete_eq.
  - intros c Hc. rewrite lookup_insert_ne, lookup_delete_ne by done.
    rewrite Hreg. split; [done|]. by apply Hother.
Qed.

(** X24: methods decorated once their class is registered do not reach
    the registry: the record of the class keeps the functions it had,
    and the entries wait in the pending table. *)
Theorem late_methods_stay_pending cls methods st :
  Forall (λ m, split_head (fn_qualname (md_func m)) = pc_name cls) methods →
  TOOL_REGISTRY (decorate_methods methods (register_tool cls st).2)
    = TOOL_REGISTRY (register_tool cls st).2 ∧
  (∃ r, TOOL_REGISTRY (decorate_methods methods (register_tool cls st).2) !! pc_name cls
        = Some r ∧
        te_functions r = default [] (PENDING_FUNCTIONS st !! pc_name cls)) ∧
  default [] (PENDING_FUNCTIONS (decorate_methods methods (register_tool cls st).2)
                !! pc_name cls)
    = entry_of <$> methods.
Proof.
  intros Hall.
  destruct (decorate_methods_effect methods (pc_name cls) (register_tool cls st).2 Hall)
    as (Hreg & Hpend & _).
  split; [done|]. split.
  - rewrite Hreg. simpl. rewrite lookup_insert_eq. eauto.
  - rewrite Hpend. simpl. by rewrite lookup_delete_eq.
Qed.
End prototype.

Lemma declare_class_attaches_methods_witness :
  (∃ r, Prototype.TOOL_REGISTRY
          (Prototype.declare_class proto_SerpApiTool proto_methods Prototype.initial)
          !! "SerpApiTool" = Some r ∧
        Prototype.te_functions r
        = [Prototype.mkEntry "search_google" "Search Google" "dict" (Some proto_doc)]) ∧
  Prototype.PENDING_FUNCTIONS
    (Prototype.declare_class proto_SerpApiTool proto_methods Prototype.initial)
    !! "SerpApiTool" = None ∧
  (∀ c, c ≠ "SerpApiTool" →
     Prototype.TOOL_REGISTRY
       (Prototype.declare_class proto_SerpApiTool proto_methods Prototype.initial) !! c
     = Prototype.TOOL_REGISTRY Prototype.initial !! c ∧
     Prototype.PENDING_FUNCTIONS
       (Prototype.declare_class proto_SerpApiTool proto_methods Prototype.initial) !! c
     = Prototype.PENDING_FUNCTIONS Prototype.initial !! c).
Proof.
  apply (declare_class_attaches_methods proto_SerpApiTool proto_methods Prototype.initial).
  repeat constructor.
Defined.

Lemma late_methods_stay_pending_witness :
  Prototype.TOOL_REGISTRY
    (Prototype.decorate_methods proto_methods
       (Prototype.register_tool proto_SerpApiTool Prototype.initial).2)
  = Prototype.TOOL_REGISTRY (Prototype.register_tool proto_SerpApiTool Prototype.initial).2 ∧
  (∃ r, Prototype.TOOL_REGISTRY
          (Prototype.decorate_methods proto_methods
             (Prototype.register_tool proto_SerpApiTool Prototype.initial).2)
          !! "SerpApiTool" = Some r ∧
        Prototype.te_functions r = []) ∧
  default [] (Prototype.PENDING_FUNCTIONS
                (Prototype.decorate_methods proto_methods
                   (Prototype.register_tool proto_SerpApiTool Prototype.initial).2)
                !! "SerpApiTool")
  = [Prototype.mkEntry "search_google" "Search Google" "dict" (Some proto_doc)].
Proof.
  apply (late_methods_stay_pending proto_SerpApiTool proto_methods Prototype.initial).
  repeat constructor.
Defined.

(** ** The message of a [KeyError] *)

(** The [repr] of a key: single quotes, double quotes around a key that
    holds a single quote, and escapes for the backslash and for the
    characters that do not print. *)
Lemma exc_str_KeyError_examples :
  exc_str (KeyError "C") = "'C'" ∧
  exc_str (KeyError "it's") = String double_quote ("it's" ++ String double_quote "") ∧
  exc_str (KeyError (String backslash "b"))
    = String single_quote (String backslash (String backslash "b'")) ∧
  exc_str (KeyError (String (ascii_of_nat 10) (String (ascii_of_nat 7) "")))
    = String single_quote (String backslash ("n" ++ String backslash "x07'")).
Proof. repeat split. Qed.
